(** * One_Click_Insight: the insight parser, the chart selector and the
      analysis orchestrator of [app.py]

    A shallow embedding of [parse_detailed_insights], [plot_chart] and
    [analyze].

    Conventions.
    - A Python [str] is a [string]; a character is a code point of the
      Latin-1 block (0..255), and [isspace], [isdigit] and [lower] are
      Python's own classification of those code points.
    - The dict [current] only ever receives the five keys "title",
      "explanation", "chart", "columns" and "tip"; it is the record
      [Insight], a key that is not set being [None].  Dict equality in
      Python ignores the insertion order, as record equality does.
    - pandas, plotly, the model endpoint, the console and the HTTP
      framework are collaborators: their calls are parameters that take
      and return the state of the outside world and may raise. *)

From Stdlib Require Import String Ascii List Bool Arith Lia.
Import ListNotations.
Local Open Scope string_scope.
Local Open Scope list_scope.

(** ** Python's [str] methods used by [app.py] *)

Module PyStr.

(** [c.isspace()] on Latin-1: TAB..CR, FS..US, SPACE, NEL, NBSP. *)
Definition isspace (c : ascii) : bool :=
  let n := nat_of_ascii c in
  (((9 <=? n) && (n <=? 13)) || ((28 <=? n) && (n <=? 32))
   || (n =? 133) || (n =? 160))%nat.

(** [c.isdigit()] on Latin-1: '0'..'9' and the superscripts 2, 3, 1. *)
Definition isdigit (c : ascii) : bool :=
  let n := nat_of_ascii c in
  (((48 <=? n) && (n <=? 57)) || (n =? 178) || (n =? 179) || (n =? 185))%nat.

(** [c.lower()] on Latin-1: 'A'..'Z' and the accented capitals
    (0xC0..0xDE but the multiplication sign 0xD7) move up by 32. *)
Definition lower_char (c : ascii) : ascii :=
  let n := nat_of_ascii c in
  if (((65 <=? n) && (n <=? 90))
      || ((192 <=? n) && (n <=? 222) && negb (n =? 215)))%nat
  then ascii_of_nat (n + 32) else c.

(** [s.lower()] *)
Fixpoint lower (s : string) : string :=
  match s with
  | EmptyString => EmptyString
  | String c r => String (lower_char c) (lower r)
  end.

(** [s.lstrip()] *)
Fixpoint lstrip (s : string) : string :=
  match s with
  | EmptyString => EmptyString
  | String c r => if isspace c then lstrip r else s
  end.

(** [s.rstrip()] *)
Fixpoint rstrip (s : string) : string :=
  match s with
  | EmptyString => EmptyString
  | String c r =>
      match rstrip r with
      | EmptyString => if isspace c then EmptyString else String c EmptyString
      | r' => String c r'
      end
  end.

(** [s.strip()] *)
Definition strip (s : string) : string := rstrip (lstrip s).

(** [s.startswith(p)] *)
Fixpoint startswith (s p : string) {struct p} : bool :=
  match p, s with
  | EmptyString, _ => true
  | String a p', String b s' => Ascii.eqb a b && startswith s' p'
  | String _ _, EmptyString => false
  end.

(** [s.endswith(p)] *)
Definition endswith (s p : string) : bool :=
  let n := String.length s in
  let m := String.length p in
  (m <=? n)%nat && String.eqb (substring (n - m) m s) p.

(** [s.split(sep)] for a separator of one character: the pieces between
    the occurrences of [sep], never an empty list. *)
Fixpoint split (sep : ascii) (s : string) : list string :=
  match s with
  | EmptyString => [EmptyString]
  | String c r =>
      if Ascii.eqb c sep then EmptyString :: split sep r
      else match split sep r with
           | piece :: more => String c piece :: more
           | [] => [String c EmptyString]
           end
  end.

(** [s.split(sep, 1)[-1]]: what follows the first [sep], the whole of
    [s] when it has none. *)
Fixpoint after_first (sep : ascii) (s : string) : option string :=
  match s with
  | EmptyString => None
  | String c r => if Ascii.eqb c sep then Some r else after_first sep r
  end.

Definition split1_last (sep : ascii) (s : string) : string :=
  match after_first sep s with
  | Some r => r
  | None => s
  end.

(** [s.replace("**", "")]: the occurrences are found from the left and
    do not overlap. *)
Fixpoint remove_stars (s : string) : string :=
  match s with
  | EmptyString => EmptyString
  | String c r =>
      match r with
      | String d r' =>
          if Ascii.eqb c "*" && Ascii.eqb d "*" then remove_stars r'
          else String c (remove_stars r)
      | EmptyString => String c EmptyString
      end
  end.

(** [s[:n]] *)
Definition take (n : nat) (s : string) : string := substring 0 n s.

(** [c in s] for a character [c] *)
Fixpoint contains (c : ascii) (s : string) : bool :=
  match s with
  | EmptyString => false
  | String a r => Ascii.eqb a c || contains c r
  end.

(** truth value of a [str] *)
Definition truthy (s : string) : bool :=
  match s with EmptyString => false | _ => true end.

(** [sep.join(l)] *)
Definition join (sep : string) (l : list string) : string :=
  String.concat sep l.

End PyStr.
Import PyStr.

Definition NL : ascii := "010"%char.

(** ** The insight record and the parser *)

Record Insight := mkInsight {
  title : option string;
  explanation : option string;
  chart : option string;
  columns : option (list string);
  tip : option string
}.

(** [{}] *)
Definition empty_dict : Insight := mkInsight None None None None None.

(** [{"title": t}] *)
Definition title_dict (t : string) : Insight :=
  mkInsight (Some t) None None None None.

Definition set_explanation (d : Insight) (v : string) : Insight :=
  mkInsight (title d) (Some v) (chart d) (columns d) (tip d).
Definition set_chart (d : Insight) (v : string) : Insight :=
  mkInsight (title d) (explanation d) (Some v) (columns d) (tip d).
Definition set_columns (d : Insight) (v : list string) : Insight :=
  mkInsight (title d) (explanation d) (chart d) (Some v) (tip d).
Definition set_tip (d : Insight) (v : string) : Insight :=
  mkInsight (title d) (explanation d) (chart d) (columns d) (Some v).

Definition is_some {A} (o : option A) : bool :=
  match o with Some _ => true | None => false end.

(** truth value of a dict: it has a key *)
Definition dict_truthy (d : Insight) : bool :=
  is_some (title d) || is_some (explanation d) || is_some (chart d)
  || is_some (columns d) || is_some (tip d).

(** truth value of [current.get("title")] *)
Definition title_truthy (d : Insight) : bool :=
  match title d with Some t => truthy t | None => false end.

(** The test of the first branch, on the stripped line. *)
Definition starts_record (line : string) : bool :=
  startswith (lower line) "title:"
  || startswith (lower line) "**"
  || (truthy line
      && match line with String c _ => isdigit c | EmptyString => false end
      && contains "."%char (take 3 line)).

(** [[c.strip() for c in cols if c.strip()]] *)
Definition clean_columns (cols : list string) : list string :=
  map strip (filter (fun c => truthy (strip c)) cols).

(** The state of the loop: [insights] and [current]. *)
Definition ParserState : Type := list Insight * Insight.

(** One turn of the [for] loop. *)
Definition parse_line (st : ParserState) (raw : string) : ParserState :=
  let '(insights, current) := st in
  let line := strip raw in
  if starts_record line then
    let insights :=
      if dict_truthy current then insights ++ [current] else insights in
    let t := strip (split1_last ":"%char (remove_stars line)) in
    (insights, title_dict t)
  else if startswith (lower line) "explanation:" then
    (insights, set_explanation current (strip (split1_last ":"%char line)))
  else if startswith (lower line) "chart:" then
    (insights, set_chart current (strip (split1_last ":"%char line)))
  else if startswith (lower line) "columns:" then
    let cols := split ","%char (strip (split1_last ":"%char line)) in
    (insights, set_columns current (clean_columns cols))
  else if startswith (lower line) "tip:" then
    (insights, set_tip current (strip (split1_last ":"%char line)))
  else (insights, current).

(** What follows the loop. *)
Definition finish (st : ParserState) : list Insight :=
  let '(insights, current) := st in
  if dict_truthy current && title_truthy current
  then insights ++ [current] else insights.

Definition parse_detailed_insights (text : string) : list Insight :=
  finish (fold_left parse_line (split NL (strip text)) ([], empty_dict)).

(** ** Effects: the outside world and exceptions

    A computation takes the state of the outside world and returns it
    with either the message [str(e)] of the exception it raised or its
    value. *)

Module Py.

Definition M (World A : Type) : Type := World -> (string + A) * World.

Definition ret {W A} (a : A) : M W A := fun w => (inr a, w).

Definition raise {W A} (e : string) : M W A := fun w => (inl e, w).

Definition bind {W A B} (m : M W A) (k : A -> M W B) : M W B :=
  fun w =>
    match m w with
    | (inr a, w') => k a w'
    | (inl e, w') => (inl e, w')
    end.

(** [try: body except Exception as e: handler(str(e))] *)
Definition try_except {W A} (body : M W A) (handler : string -> M W A)
  : M W A :=
  fun w =>
    match body w with
    | (inr a, w') => (inr a, w')
    | (inl e, w') => handler e w'
    end.

End Py.
Import Py.

Declare Scope py_scope.
Delimit Scope py_scope with py.
Notation "x <- m ;; k" := (bind m (fun x => k))
  (at level 61, m at next level, right associativity) : py_scope.
Local Open Scope py_scope.

(** ** The table *)

(** The dtype pandas infers for a column; [object] is the dtype of text. *)
Inductive Dtype := object | int64 | float64 | bool_.

Definition is_object (d : Dtype) : bool :=
  match d with object => true | _ => false end.

Record Series := mkSeries { dtype : Dtype; cells : list string }.

(** A table as [read_csv] and [read_excel] load it: they make the column
    names distinct, so a table is a finite map from the name of a column
    to the column, kept in the order of the file. *)
Definition DataFrame : Type := list (string * Series).

(** [df.columns] *)
Definition df_columns (df : DataFrame) : list string := map fst df.

(** [c in df.columns] *)
Definition has_column (df : DataFrame) (c : string) : bool :=
  existsb (String.eqb c) (df_columns df).

(** [df[c]], a [KeyError] when the table has no such column *)
Fixpoint getitem {W} (df : DataFrame) (c : string) : M W Series :=
  match df with
  | [] => raise ("'" ++ c ++ "'")%string
  | (name, col) :: rest =>
      if String.eqb name c then ret col else getitem rest c
  end.

(** ** The chart selector and renderer *)

(** The table handed to plotly:
    - [Whole]: [df];
    - [GroupSize c1 c2]:
      [df.groupby([c1, c2]).size().reset_index(name='count')];
    - [GroupMean key val]: [df.groupby(key)[val].mean().reset_index()];
    - [ValueCounts c]: [df[c].value_counts().reset_index(name="count")]
      with its columns renamed to [[c, "count"]]. *)
Inductive FrameExpr :=
| Whole
| GroupSize (c1 c2 : string)
| GroupMean (key val : string)
| ValueCounts (c : string).

(** The call of plotly express, with its keyword arguments. *)
Inductive PxCall :=
| px_bar (data : FrameExpr) (x y : string) (color : option string)
         (title : string)
| px_scatter (data : FrameExpr) (x y : string) (title : string)
| px_histogram (data : FrameExpr) (x : string) (title : string).

(** What [plot_chart] returns: a pair, or [None] when the function
    ends without a [return]. *)
Inductive PlotResult :=
| PyNone
| Pair (chart : option string) (error : option string).

Definition MISSING_COLUMNS : string := "Missing or invalid columns".

Section Renderer.

Variable World : Type.
(** a plotly figure; a figure object is always true *)
Variable Figure : Type.
(** evaluates the pandas expression on the table and builds the figure *)
Variable px : DataFrame -> PxCall -> M World Figure.
(** [fig.write_image(buffer, format='png')], then
    [base64.b64encode(buffer.getvalue()).decode()] *)
Variable write_png_b64 : Figure -> M World string.

(** [insight.get("columns", [])] *)
Definition get_columns (insight : Insight) : list string :=
  match columns insight with Some l => l | None => [] end.

(** [any(c not in df.columns for c in cols)] *)
Definition any_missing (df : DataFrame) (cols : list string) : bool :=
  existsb (fun c => negb (has_column df c)) cols.

(** [df[c].dtype == 'object'] *)
Definition dtype_is_object (df : DataFrame) (c : string) : M World bool :=
  s <- getitem df c ;; ret (is_object (dtype s)).

(** [df[c].dtype != 'object'] *)
Definition dtype_not_object (df : DataFrame) (c : string) : M World bool :=
  s <- getitem df c ;; ret (negb (is_object (dtype s))).

(** [a and b] on two tests, the second run only when the first holds *)
Definition and_then (a b : M World bool) : M World bool :=
  x <- a ;; if x then b else ret false.

Definition plot_chart (df : DataFrame) (insight : Insight)
  : M World PlotResult :=
  try_except
    (let cols := get_columns insight in
     if negb (0 <? length cols)%nat || any_missing df cols then
       ret (Pair None (Some MISSING_COLUMNS))
     else
       col1 <- match nth_error cols 0 with
               | Some c => ret c
               | None => raise "list index out of range"
               end ;;
       let col2 := if (1 <? length cols)%nat then nth_error cols 1
                   else None in
       let one_column :=
         obj <- dtype_is_object df col1 ;;
         if obj then
           f <- px df (px_bar (ValueCounts col1) col1 "count" None
                         ("Distribution: " ++ col1)%string) ;;
           ret (Some f)
         else
           f <- px df (px_histogram Whole col1
                         ("Histogram: " ++ col1)%string) ;;
           ret (Some f) in
       let two_columns (c2 : string) :=
         both_obj <- and_then (dtype_is_object df col1)
                              (dtype_is_object df c2) ;;
         if both_obj then
           f <- px df (px_bar (GroupSize col1 c2) col1 "count"
                         (Some c2) (col1 ++ " vs " ++ c2)%string) ;;
           ret (Some f)
         else
           both_num <- and_then (dtype_not_object df col1)
                                (dtype_not_object df c2) ;;
           if both_num then
             f <- px df (px_scatter Whole col1 c2
                           (col1 ++ " vs " ++ c2)%string) ;;
             ret (Some f)
           else
             f <- px df (px_bar (GroupMean col1 c2) col1 c2 None
                           (col1 ++ " vs " ++ c2)%string) ;;
             ret (Some f) in
       fig <-
         match col2 with
         | Some c2 => if truthy c2 then two_columns c2 else one_column
         | None => one_column
         end ;;
       match fig with
       | Some f =>
           encoded <- write_png_b64 f ;;
           ret (Pair (Some encoded) None)
       | None => ret PyNone
       end)
    (fun e => ret (Pair None (Some e))).

End Renderer.

Arguments plot_chart {World Figure} px write_png_b64 df insight.
Arguments dtype_is_object {World} df c.
Arguments dtype_not_object {World} df c.
Arguments and_then {World} a b.

(** ** The orchestrator *)

(** The uploaded file.  Its truth value is that of its name. *)
Record FileStorage := mkFile { filename : option string; stream : string }.

Definition file_truthy (f : FileStorage) : bool :=
  match filename f with Some n => truthy n | None => false end.

(** The JSON bodies that [analyze] sends. *)
Inductive Body :=
| ErrorBody (error : string)
| ErrorRawBody (error raw : string)
| AnalysisBody (insights : list Insight) (chart error : option string).

(** A body and its HTTP status; [jsonify] alone is a 200. *)
Definition Response : Type := Body * nat.

Definition PROMPT_HEAD : string := "You are a business data analyst.

Given the dataset summary below:
".

Definition PROMPT_TAIL : string := "

Extract 5 powerful business insights.

For each:
- Title: short and clear
- Explanation: why this insight matters
- Chart: type of chart to visualize it (e.g., bar, scatter)
- Columns: columns needed for the chart
- Tip: business recommendation

Format like:
Title: ...
Explanation: ...
Chart: ...
Columns: ...
Tip: ...
".

Definition build_prompt (summary : string) : string :=
  (PROMPT_HEAD ++ summary ++ PROMPT_TAIL)%string.

(** The head of the reply that stands for a failed call; the cross mark
    of the source is kept as the three bytes of its UTF-8 form. *)
Definition GROQ_ERROR_PREFIX : string := "❌ Groq API Error: ".

(** The first argument of the [print] of [analyze]; its emoji is kept
    as the four bytes of its UTF-8 form. *)
Definition RAW_RESPONSE_LABEL : string := "🧠 Raw AI response:".

Section Orchestrator.

Variable World : Type.
Variable Figure : Type.
Variable px : DataFrame -> PxCall -> M World Figure.
Variable write_png_b64 : Figure -> M World string.
(** [pd.read_csv(file)], [pd.read_excel(file)] *)
Variable read_csv read_excel : FileStorage -> M World DataFrame.
(** [df.describe(include='all').to_string()] *)
Variable describe_to_string : DataFrame -> M World string.
(** [requests.post] to the model endpoint, [raise_for_status] and the
    extraction of [choices[0].message.content] from the reply *)
Variable groq_chat : string -> M World string.
(** [print(...)], from the list of its arguments: it writes them to the
    standard output and raises when that fails, as on a console that
    cannot encode them *)
Variable console_print : list string -> M World unit.

Definition query_llama3 (prompt : string) : M World string :=
  try_except (groq_chat prompt)
             (fun e => ret (GROQ_ERROR_PREFIX ++ e)%string).

(** [analyze], from the file found in the request.  The
    [traceback.print_exc()] of the handler is left out: it writes to the
    standard error, which escapes what it cannot encode, and nothing of
    the answer depends on it. *)
Definition analyze (file : option FileStorage) : M World Response :=
  match file with
  | None => ret (ErrorBody "No file uploaded", 400)
  | Some f =>
    if negb (file_truthy f) then ret (ErrorBody "No file uploaded", 400)
    else
      try_except
        (name <- match filename f with
                 | Some n => ret n
                 | None => raise "'NoneType' object has no attribute 'endswith'"
                 end ;;
         let continue_with (df : DataFrame) : M World Response :=
           summary <- describe_to_string df ;;
           let prompt := build_prompt summary in
           ai_response <- query_llama3 prompt ;;
           printed <- console_print [RAW_RESPONSE_LABEL; ai_response] ;;
           let insights := parse_detailed_insights ai_response in
           match insights with
           | [] => ret (ErrorRawBody "No insights extracted" ai_response, 500)
           | first :: _ =>
               r <- plot_chart px write_png_b64 df first ;;
               match r with
               | Pair chart error => ret (AnalysisBody insights chart error, 200)
               | PyNone => raise "cannot unpack non-iterable NoneType object"
               end
           end in
         if endswith name ".csv" then
           df <- read_csv f ;; continue_with df
         else if endswith name ".xlsx" then
           df <- read_excel f ;; continue_with df
         else ret (ErrorBody "Unsupported file type", 400))
        (fun e => ret (ErrorBody e, 500))
  end.

End Orchestrator.

Arguments query_llama3 {World} groq_chat prompt.
Arguments analyze {World Figure} px write_png_b64 read_csv read_excel
  describe_to_string groq_chat console_print file.

(** ** Definitions used by the statements *)

(** [df[c]] as a partial function *)
Fixpoint lookup (df : DataFrame) (c : string) : option Series :=
  match df with
  | [] => None
  | (name, col) :: rest =>
      if String.eqb name c then Some col else lookup rest c
  end.

Definition column_dtype (df : DataFrame) (c : string) : option Dtype :=
  option_map dtype (lookup df c).

(** The chart that the branches of [plot_chart] pick, as a function of
    the first column, its dtype and, when there is a second column with
    a name that is true, that column and its dtype. *)
Definition select_chart (c1 : string) (t1 : Dtype)
    (second : option (string * Dtype)) : PxCall :=
  match second with
  | Some (c2, t2) =>
      if is_object t1 && is_object t2 then
        px_bar (GroupSize c1 c2) c1 "count" (Some c2)
               (c1 ++ " vs " ++ c2)%string
      else if negb (is_object t1) && negb (is_object t2) then
        px_scatter Whole c1 c2 (c1 ++ " vs " ++ c2)%string
      else
        px_bar (GroupMean c1 c2) c1 c2 None (c1 ++ " vs " ++ c2)%string
  | None =>
      if is_object t1 then
        px_bar (ValueCounts c1) c1 "count" None
               ("Distribution: " ++ c1)%string
      else px_histogram Whole c1 ("Histogram: " ++ c1)%string
  end.

(** The second column that [plot_chart] looks at, with its dtype. *)
Definition second_column (df : DataFrame) (cols : list string)
  : option (string * Dtype) :=
  match cols with
  | _ :: c2 :: _ =>
      if truthy c2 then
        match column_dtype df c2 with
        | Some t2 => Some (c2, t2)
        | None => None
        end
      else None
  | _ => None
  end.

(** Building one figure, writing it and encoding it, inside the [try]. *)
Definition render_call {World Figure}
    (px : DataFrame -> PxCall -> M World Figure)
    (write_png_b64 : Figure -> M World string)
    (df : DataFrame) (call : PxCall) : M World PlotResult :=
  try_except
    (f <- px df call ;;
     encoded <- write_png_b64 f ;;
     ret (Pair (Some encoded) None))
    (fun e => ret (Pair None (Some e))).

(** A world that keeps the list of the calls of plotly express. *)
Definition Log : Type := list PxCall.

Definition log_px (df : DataFrame) (call : PxCall) : M Log unit :=
  fun w => (inr tt, w ++ [call]).

Definition log_write (f : unit) : M Log string :=
  fun w => (inr "iVBORw0KGgo=", w).

(** A renderer that fails. *)
Definition failing_px (df : DataFrame) (call : PxCall) : M Log unit :=
  fun w => (inl "Image export requires the kaleido package", w ++ [call]).

Definition sales_table : DataFrame :=
  [ ("Region", mkSeries object ["North"; "South"; "North"]);
    ("Sales", mkSeries float64 ["10.0"; "12.5"; "7.25"]);
    ("Units", mkSeries int64 ["3"; "4"; "2"]) ].

Definition insight_with_columns (cols : list string) : Insight :=
  mkInsight (Some "Revenue Growth") None (Some "bar") (Some cols) None.

(** C3 as it is stated: whenever the first two columns of the insight
    are in the table, one categorical and one numeric in either order,
    [plot_chart] renders the bar chart of the mean of the numeric column
    per value of the categorical one. *)
Definition mixed_pair_claim : Prop :=
  forall (World Figure : Type)
         (px : DataFrame -> PxCall -> M World Figure)
         (write_png_b64 : Figure -> M World string)
         (df : DataFrame) (insight : Insight)
         (c1 c2 : string) (rest : list string) (t1 t2 : Dtype) (w : World),
    get_columns insight = c1 :: c2 :: rest ->
    column_dtype df c1 = Some t1 ->
    column_dtype df c2 = Some t2 ->
    is_object t1 = negb (is_object t2) ->
    let cat := if is_object t1 then c1 else c2 in
    let num := if is_object t1 then c2 else c1 in
    exists title,
      plot_chart px write_png_b64 df insight w
      = render_call px write_png_b64 df
          (px_bar (GroupMean cat num) cat num None title) w.

(** Collaborators of a run of [analyze] in which only the chart fails. *)
Definition load_sales (f : FileStorage) : M Log DataFrame :=
  fun w => (inr sales_table, w).

Definition describe_sales (df : DataFrame) : M Log string :=
  fun w => (inr "        Region  Sales  Units", w).

Definition model_reply : string := "Title: Revenue Growth
Explanation: Sales up 20%
Chart: bar
Columns: Region, Sales
Tip: Expand top regions".

Definition groq_sales (prompt : string) : M Log string :=
  fun w => (inr model_reply, w).

(** [v] is [ext] with at least one letter in upper case. *)
Definition case_variant (v ext : string) : Prop :=
  lower v = ext /\ v <> ext.

(** ** Writing insights back as labelled lines

    [app.py] has no such function; this is the form that the prompt
    asks the model for, one line per key that the record has, in the
    order Title, Explanation, Chart, Columns, Tip, the columns joined
    by a comma and a space and the lines by a line feed. *)

Definition label_line (label : string) (v : option string) : list string :=
  match v with
  | Some s => [(label ++ s)%string]
  | None => []
  end.

Definition serialize_insight (i : Insight) : list string :=
  label_line "Title: " (title i)
  ++ label_line "Explanation: " (explanation i)
  ++ label_line "Chart: " (chart i)
  ++ label_line "Columns: " (option_map (join ", ") (columns i))
  ++ label_line "Tip: " (tip i).

Definition serialize (l : list Insight) : string :=
  join (String NL "") (flat_map serialize_insight l).


(** ** Definitions for the facts about strings and lines *)

(** every character of [s] is white space *)
Fixpoint all_space (s : string) : bool :=
  match s with
  | EmptyString => true
  | String c r => isspace c && all_space r
  end.

(** The pieces of [a ++ b] from those of [a] and of [b]: the last piece
    of [a] and the first of [b] are one piece. *)
Fixpoint glue (la lb : list string) : list string :=
  match la with
  | [] => lb
  | x :: la' =>
      match la' with
      | [] => match lb with
              | y :: lb' => (x ++ y)%string :: lb'
              | [] => [x]
              end
      | _ :: _ => x :: glue la' lb
      end
  end.

(** [s] has no two stars in a row *)
Fixpoint star2_free (s : string) : bool :=
  match s with
  | EmptyString => true
  | String c r =>
      match r with
      | String d _ => negb (Ascii.eqb c "*" && Ascii.eqb d "*")
      | EmptyString => true
      end && star2_free r
  end.

(** The loop of the parser on a list of lines. *)
Definition parse_lines (lines : list string) (st : ParserState)
  : ParserState :=
  fold_left parse_line lines st.

(** What the parser stores: text without white space at its ends and
    without a line feed; a title has no two stars in a row; a column
    name has no comma and is not empty. *)
Definition stripped (s : string) : Prop := lstrip s = s /\ rstrip s = s.

Definition value_ok (v : string) : Prop :=
  stripped v /\ contains NL v = false.

Definition title_ok (t : string) : Prop :=
  value_ok t /\ star2_free t = true.

Definition column_ok (c : string) : Prop :=
  value_ok c /\ contains "," c = false /\ c <> "".

Definition opt_ok {A} (P : A -> Prop) (o : option A) : Prop :=
  match o with Some a => P a | None => True end.

Definition insight_ok (i : Insight) : Prop :=
  opt_ok title_ok (title i)
  /\ opt_ok value_ok (explanation i)
  /\ opt_ok value_ok (chart i)
  /\ opt_ok (Forall column_ok) (columns i)
  /\ opt_ok value_ok (tip i).

Definition titled (i : Insight) : Prop := is_some (title i) = true.

(** Every insight but the first has the key "title". *)
Definition titled_after_first (l : list Insight) : Prop :=
  match l with
  | [] => True
  | _ :: tl => Forall titled tl
  end.

Definition output_ok (l : list Insight) : Prop :=
  Forall insight_ok l
  /\ Forall (fun i => dict_truthy i = true) l
  /\ titled_after_first l.

Definition state_ok (st : ParserState) : Prop :=
  output_ok (fst st)
  /\ insight_ok (snd st)
  /\ (fst st <> [] -> titled (snd st)).

(** The text after the colon of a written line, once the line is
    stripped: [" " ++ v], or nothing when [v] is empty. *)
Definition spaced (v : string) : string :=
  match v with
  | EmptyString => EmptyString
  | String _ _ => String " " v
  end.

(** [cur] with the keys of [i] other than "title" set to their values
    in [i]. *)
Definition with_fields (cur i : Insight) : Insight :=
  let d1 := match explanation i with
            | Some v => set_explanation cur v | None => cur end in
  let d2 := match chart i with Some v => set_chart d1 v | None => d1 end in
  let d3 := match columns i with Some v => set_columns d2 v | None => d2 end in
  match tip i with Some v => set_tip d3 v | None => d3 end.

(** The lines of an insight after its "Title:" line. *)
Definition field_lines (i : Insight) : list string :=
  label_line "Explanation: " (explanation i)
  ++ label_line "Chart: " (chart i)
  ++ label_line "Columns: " (option_map (join ", ") (columns i))
  ++ label_line "Tip: " (tip i).

(** ** The kinds of lines

    The branch of the loop that a line takes, and the text that the
    branch stores. *)

Inductive LineKind :=
| RecordLine | ExplanationLine | ChartLine | ColumnsLine | TipLine
| OtherLine.

Definition line_kind (raw : string) : LineKind :=
  let line := strip raw in
  if starts_record line then RecordLine
  else if startswith (lower line) "explanation:" then ExplanationLine
  else if startswith (lower line) "chart:" then ChartLine
  else if startswith (lower line) "columns:" then ColumnsLine
  else if startswith (lower line) "tip:" then TipLine
  else OtherLine.

(** The title that a record line gives. *)
Definition record_title (raw : string) : string :=
  strip (split1_last ":" (remove_stars (strip raw))).

(** The text that a field line stores. *)
Definition field_value (raw : string) : string :=
  strip (split1_last ":" (strip raw)).

(** The reader that [analyze] picks for a file name, if any. *)
Definition reader_for {World}
    (read_csv read_excel : FileStorage -> M World DataFrame)
    (name : string) : option (FileStorage -> M World DataFrame) :=
  if endswith name ".csv" then Some read_csv
  else if endswith name ".xlsx" then Some read_excel
  else None.

(** A console that takes what is printed, and one that cannot encode
    the emoji. *)
Definition console_ok (args : list string) : M Log unit :=
  fun w => (inr tt, w).


(** A model endpoint that cannot be reached. *)
Definition groq_down (prompt : string) : M Log string :=
  fun w => (inl "HTTPSConnectionPool(host='api.groq.com', port=443)", w).

(** A reply with no insight in it. *)
Definition groq_chatty (prompt : string) : M Log string :=
  fun w => (inr "I could not find anything of interest.", w).


Definition names_table : DataFrame :=
  [ ("Region", mkSeries object ["North"; "South"]);
    ("Product", mkSeries object ["Tea"; "Coffee"]);
    ("Sales", mkSeries float64 ["10.0"; "12.5"]);
    ("Units", mkSeries int64 ["3"; "4"]) ].

(** ** The runs of [analyze]

    Every run is one of seven: no file, a name with no reader, a read
    that raises, a summary that raises, a [print] that raises, a reply
    with no insight, and the answer with the insights and the pair of
    [plot_chart]. *)

Section Outcomes.

Context {World Figure : Type}.
Variable px : DataFrame -> PxCall -> M World Figure.
Variable write_png_b64 : Figure -> M World string.
Variable read_csv read_excel : FileStorage -> M World DataFrame.
Variable describe_to_string : DataFrame -> M World string.
Variable groq_chat : string -> M World string.
Variable console_print : list string -> M World unit.

Inductive Outcome (file : option FileStorage) (w : World)
  : Response -> World -> Prop :=
| NoFile :
    (file = None \/ exists f, file = Some f /\ file_truthy f = false) ->
    Outcome file w (ErrorBody "No file uploaded", 400) w
| Unsupported f name :
    file = Some f -> filename f = Some name -> truthy name = true ->
    reader_for read_csv read_excel name = None ->
    Outcome file w (ErrorBody "Unsupported file type", 400) w
| LoadFailed f name read e w1 :
    file = Some f -> filename f = Some name ->
    reader_for read_csv read_excel name = Some read ->
    read f w = (inl e, w1) ->
    Outcome file w (ErrorBody e, 500) w1
| DescribeFailed f name read df e w1 w2 :
    file = Some f -> filename f = Some name ->
    reader_for read_csv read_excel name = Some read ->
    read f w = (inr df, w1) ->
    describe_to_string df w1 = (inl e, w2) ->
    Outcome file w (ErrorBody e, 500) w2
| PrintFailed f name read df summary reply e w1 w2 w3 w4 :
    file = Some f -> filename f = Some name ->
    reader_for read_csv read_excel name = Some read ->
    read f w = (inr df, w1) ->
    describe_to_string df w1 = (inr summary, w2) ->
    query_llama3 groq_chat (build_prompt summary) w2 = (inr reply, w3) ->
    console_print [RAW_RESPONSE_LABEL; reply] w3 = (inl e, w4) ->
    Outcome file w (ErrorBody e, 500) w4
| NoInsight f name read df summary reply w1 w2 w3 w4 :
    file = Some f -> filename f = Some name ->
    reader_for read_csv read_excel name = Some read ->
    read f w = (inr df, w1) ->
    describe_to_string df w1 = (inr summary, w2) ->
    query_llama3 groq_chat (build_prompt summary) w2 = (inr reply, w3) ->
    console_print [RAW_RESPONSE_LABEL; reply] w3 = (inr tt, w4) ->
    parse_detailed_insights reply = [] ->
    Outcome file w (ErrorRawBody "No insights extracted" reply, 500) w4
| Charted f name read df summary reply first rest chart error
          w1 w2 w3 w4 w5 :
    file = Some f -> filename f = Some name ->
    reader_for read_csv read_excel name = Some read ->
    read f w = (inr df, w1) ->
    describe_to_string df w1 = (inr summary, w2) ->
    query_llama3 groq_chat (build_prompt summary) w2 = (inr reply, w3) ->
    console_print [RAW_RESPONSE_LABEL; reply] w3 = (inr tt, w4) ->
    parse_detailed_insights reply = first :: rest ->
    plot_chart px write_png_b64 df first w4 = (inr (Pair chart error), w5) ->
    (exists img, chart = Some img /\ error = None)
    \/ (exists msg, chart = None /\ error = Some msg) ->
    Outcome file w (AnalysisBody (first :: rest) chart error, 200) w5.

End Outcomes.

(** ** The [str] methods: runs *)

Example strip_run : strip (String "009" "  a b " ++ String NL "") = "a b".
Proof. reflexivity. Qed.

Example lower_run : lower "TITLE: Revenue" = "title: revenue".
Proof. reflexivity. Qed.

Example split_run : split "," "a,, b ," = ["a"; ""; " b "; ""].
Proof. reflexivity. Qed.

Example split_empty_run : split NL "" = [""].
Proof. reflexivity. Qed.

Example split1_last_run :
  split1_last ":" "Title: a: b" = " a: b" /\ split1_last ":" "1. Foo" = "1. Foo".
Proof. split; reflexivity. Qed.

Example remove_stars_run :
  remove_stars "**Key: x**" = "Key: x" /\ remove_stars "***" = "*"
  /\ remove_stars "*a**" = "*a".
Proof. repeat split; reflexivity. Qed.

Example endswith_run :
  endswith "data.csv" ".csv" = true /\ endswith "data.CSV" ".csv" = false
  /\ endswith "csv" ".csv" = false.
Proof. repeat split; reflexivity. Qed.

(** ** The parser: runs *)

(** Two "Title:" lines in a row give two insights, the first with its
    title alone. *)
Example parse_two_titles :
  parse_detailed_insights "Title: a
Title: b" = [title_dict "a"; title_dict "b"].
Proof. vm_compute. reflexivity. Qed.

(** A numbered line starts a record; a line with no known head is
    passed over; empty column names are left out. *)
Example parse_numbered_run :
  parse_detailed_insights "1. Foo: bar
  2) x
Columns: a,, b ,
"
  = [ mkInsight (Some "bar") None None (Some ["a"; "b"]) None ].
Proof. vm_compute. reflexivity. Qed.

(** C8: the reply with the five labelled lines of one insight parses to
    that one insight. *)
Theorem parse_five_labelled_lines :
  parse_detailed_insights "Title: Revenue Growth
Explanation: Sales up 20%
Chart: bar
Columns: Region, Sales
Tip: Expand top regions"
  = [ mkInsight (Some "Revenue Growth") (Some "Sales up 20%") (Some "bar")
                (Some ["Region"; "Sales"]) (Some "Expand top regions") ].
Proof. vm_compute. reflexivity. Qed.

(** C1 fails on this reply: the heading line starts a record whose
    title is empty, and the "Title:" line that follows appends that
    record, since the append of the loop tests the dict only and not
    its title as the append after the loop does. *)
Theorem empty_title_appended_by_next_record :
  parse_detailed_insights "**Insight 1:**
Title: Revenue Growth"
  = [ mkInsight (Some "") None None None None;
      mkInsight (Some "Revenue Growth") None None None None ].
Proof. vm_compute. reflexivity. Qed.

(** C2 fails on this reply: the "Explanation:" line comes before any
    record, its text is stored in the empty dict, and the "Title:" line
    that follows appends that dict. *)
Theorem orphan_explanation_is_emitted :
  parse_detailed_insights "Explanation: Sales up 20%
Title: Revenue Growth"
  = [ mkInsight None (Some "Sales up 20%") None None None;
      mkInsight (Some "Revenue Growth") None None None None ].
Proof. vm_compute. reflexivity. Qed.

(** C4 fails on this reply: its second insight has an empty title, was
    appended by the third line, and is dropped when the lines written
    back are parsed, where it is the record that the end of the input
    finishes. *)
Theorem reparse_drops_last_empty_title :
  let reply := "Title: Revenue Growth
**Note:**
**End:**" in
  parse_detailed_insights reply
  = [ mkInsight (Some "Revenue Growth") None None None None;
      mkInsight (Some "") None None None None ]
  /\ serialize (parse_detailed_insights reply) = "Title: Revenue Growth
Title: "
  /\ parse_detailed_insights (serialize (parse_detailed_insights reply))
     = [ mkInsight (Some "Revenue Growth") None None None None ].
Proof. vm_compute. repeat split; reflexivity. Qed.


(** ** Facts about [strip] and [split] *)

Lemma append_length (a b : string) :
  String.length (a ++ b)%string = String.length a + String.length b.
Proof. induction a; simpl; congruence. Qed.

Lemma append_assoc (a b c : string) :
  ((a ++ b) ++ c)%string = (a ++ (b ++ c))%string.
Proof. induction a; simpl; congruence. Qed.

Lemma append_empty_r (s : string) : (s ++ "")%string = s.
Proof. induction s; simpl; congruence. Qed.

Lemma lstrip_all_space (s : string) : all_space s = true -> lstrip s = "".
Proof.
  induction s as [|c r IH]; simpl; [reflexivity|].
  intros H. apply andb_true_iff in H as [Hc Hr]. rewrite Hc. auto.
Qed.

Lemma rstrip_all_space (s : string) : all_space s = true -> rstrip s = "".
Proof.
  induction s as [|c r IH]; simpl; [reflexivity|].
  intros H. apply andb_true_iff in H as [Hc Hr].
  rewrite (IH Hr), Hc. reflexivity.
Qed.

Lemma rstrip_empty_all_space (s : string) :
  rstrip s = "" -> all_space s = true.
Proof.
  induction s as [|c r IH]; simpl; [reflexivity|].
  destruct (rstrip r) eqn:E; [|discriminate].
  destruct (isspace c); [|discriminate]. intros _. simpl. auto.
Qed.

Lemma strip_all_space (s : string) : all_space s = true -> strip s = "".
Proof. intros H. unfold strip. rewrite (lstrip_all_space s H). reflexivity. Qed.

Lemma lstrip_decomp (s : string) :
  exists ws, all_space ws = true /\ s = (ws ++ lstrip s)%string.
Proof.
  induction s as [|c r [ws [Hws Hr]]].
  - exists "". split; reflexivity.
  - simpl. destruct (isspace c) eqn:Hc.
    + exists (String c ws). simpl. rewrite Hc, Hws. split; [reflexivity|].
      f_equal. exact Hr.
    + exists "". split; reflexivity.
Qed.

Lemma rstrip_decomp (s : string) :
  exists ws, all_space ws = true /\ s = (rstrip s ++ ws)%string.
Proof.
  induction s as [|c r [ws [Hws Hr]]].
  - exists "". split; reflexivity.
  - simpl. destruct (rstrip r) as [|d r'] eqn:E.
    + destruct (isspace c) eqn:Hc.
      * exists (String c r). simpl. rewrite Hc.
        rewrite (rstrip_empty_all_space r E). split; reflexivity.
      * exists ws. split; [exact Hws|]. simpl. f_equal. exact Hr.
    + exists ws. split; [exact Hws|]. simpl. f_equal. exact Hr.
Qed.

Lemma lstrip_app_space (x y : string) :
  all_space x = true -> lstrip (x ++ y) = lstrip y.
Proof.
  induction x as [|c r IH]; simpl; [reflexivity|].
  intros H. apply andb_true_iff in H as [Hc Hr]. rewrite Hc. auto.
Qed.

Lemma rstrip_app_space (x y : string) :
  all_space y = true -> rstrip (x ++ y) = rstrip x.
Proof.
  intros Hy. induction x as [|c r IH]; simpl.
  - apply rstrip_all_space. exact Hy.
  - rewrite IH. reflexivity.
Qed.

Lemma strip_app_space_l (x y : string) :
  all_space x = true -> strip (x ++ y) = strip y.
Proof. intros H. unfold strip. rewrite lstrip_app_space by exact H. reflexivity. Qed.

Lemma strip_app_space_r (x y : string) :
  all_space y = true -> strip (x ++ y) = strip x.
Proof.
  intros Hy. unfold strip. induction x as [|c r IH]; simpl.
  - rewrite (lstrip_all_space y Hy). reflexivity.
  - destruct (isspace c); [exact IH|].
    apply (rstrip_app_space (String c r) y Hy).
Qed.

Lemma split_nonempty (sep : ascii) (s : string) : split sep s <> [].
Proof.
  destruct s as [|c r]; simpl; [discriminate|].
  destruct (Ascii.eqb c sep); [discriminate|].
  destruct (split sep r); discriminate.
Qed.

Lemma split_app (sep : ascii) (a b : string) :
  split sep (a ++ b) = glue (split sep a) (split sep b).
Proof.
  induction a as [|c a IH].
  - simpl. destruct (split sep b) as [|y lb] eqn:E; [|reflexivity].
    exfalso. exact (split_nonempty sep b E).
  - cbn [append split]. destruct (Ascii.eqb c sep).
    + rewrite IH. cbn [glue].
      destruct (split sep a) as [|p m] eqn:E; [|reflexivity].
      exfalso. exact (split_nonempty sep a E).
    + rewrite IH.
      destruct (split sep a) as [|p m] eqn:E;
        [exfalso; exact (split_nonempty sep a E)|].
      cbn [glue]. destruct m as [|m1 m'].
      * destruct (split sep b); reflexivity.
      * reflexivity.
Qed.

Lemma split_all_space (sep : ascii) (s : string) :
  all_space s = true ->
  Forall (fun l => all_space l = true) (split sep s).
Proof.
  induction s as [|c r IH]; simpl; intros H.
  - constructor; [reflexivity | constructor].
  - apply andb_true_iff in H as [Hc Hr]. specialize (IH Hr).
    destruct (Ascii.eqb c sep).
    + constructor; [reflexivity | exact IH].
    + destruct (split sep r) as [|p m].
      * constructor; [simpl; rewrite Hc; reflexivity | constructor].
      * inversion IH; subst. constructor; [simpl; rewrite Hc; assumption|assumption].
Qed.

(** ** The loop does not see the outer [strip] *)

Lemma parse_line_strip_eq (st : ParserState) (a b : string) :
  strip a = strip b -> parse_line st a = parse_line st b.
Proof. intros H. unfold parse_line. destruct st. rewrite H. reflexivity. Qed.

Lemma parse_line_blank (st : ParserState) (raw : string) :
  all_space raw = true -> parse_line st raw = st.
Proof.
  intros H. unfold parse_line. destruct st as [insights current].
  rewrite (strip_all_space raw H). reflexivity.
Qed.

Lemma parse_lines_blank (ls : list string) (st : ParserState) :
  Forall (fun l => all_space l = true) ls -> parse_lines ls st = st.
Proof.
  unfold parse_lines. intros H. revert st.
  induction H as [|l ls Hl _ IH]; intros st; simpl; [reflexivity|].
  rewrite (parse_line_blank st l Hl). apply IH.
Qed.

Lemma parse_lines_glue_blank_l (la lb : list string) (st : ParserState) :
  Forall (fun l => all_space l = true) la -> lb <> [] ->
  parse_lines (glue la lb) st = parse_lines lb st.
Proof.
  intros Hla Hlb. revert st.
  induction Hla as [|x la Hx Hla IH]; intros st; [reflexivity|].
  cbn [glue]. destruct la as [|x' la'].
  - destruct lb as [|y lb']; [congruence|].
    unfold parse_lines. simpl. f_equal.
    apply parse_line_strip_eq. apply strip_app_space_l. exact Hx.
  - unfold parse_lines in *. cbn [fold_left].
    rewrite (parse_line_blank st x Hx). apply IH.
Qed.

Lemma parse_lines_glue_blank_r (la lb : list string) (st : ParserState) :
  Forall (fun l => all_space l = true) lb -> la <> [] ->
  parse_lines (glue la lb) st = parse_lines la st.
Proof.
  intros Hlb Hla. revert st.
  induction la as [|x la IH]; intros st; [congruence|].
  cbn [glue]. destruct la as [|x' la'].
  - destruct lb as [|y lb']; [reflexivity|].
    inversion Hlb; subst. unfold parse_lines. cbn [fold_left].
    rewrite (parse_line_strip_eq st (x ++ y) x (strip_app_space_r x y H1)).
    apply (parse_lines_blank lb' _ H2).
  - unfold parse_lines in *. cbn [fold_left]. apply IH. discriminate.
Qed.

(** [parse_detailed_insights] on the lines of the text as it is. *)
Lemma parse_lines_unstripped (text : string) (st : ParserState) :
  parse_lines (split NL (strip text)) st = parse_lines (split NL text) st.
Proof.
  destruct (lstrip_decomp text) as [wl [Hwl Htext]].
  destruct (rstrip_decomp (lstrip text)) as [wr [Hwr Hl]].
  fold (strip text) in Hl.
  assert (split NL text = glue (split NL wl) (split NL (lstrip text))) as E1
    by (rewrite <- split_app, <- Htext; reflexivity).
  assert (split NL (lstrip text)
          = glue (split NL (strip text)) (split NL wr)) as E2
    by (rewrite <- split_app, <- Hl; reflexivity).
  rewrite E1, parse_lines_glue_blank_l;
    [| apply split_all_space; exact Hwl | apply split_nonempty].
  rewrite E2, parse_lines_glue_blank_r;
    [| apply split_all_space; exact Hwr | apply split_nonempty].
  reflexivity.
Qed.

Lemma parse_detailed_insights_lines (text : string) :
  parse_detailed_insights text
  = finish (parse_lines (split NL text) ([], empty_dict)).
Proof.
  unfold parse_detailed_insights. fold (parse_lines (split NL (strip text)) ([], empty_dict)).
  rewrite parse_lines_unstripped. reflexivity.
Qed.

(** ** What the parser stores *)

Lemma string_ind2 (P : string -> Prop) :
  P "" -> (forall c, P (String c "")) ->
  (forall c d r, P r -> P (String d r) -> P (String c (String d r))) ->
  forall s, P s.
Proof.
  intros H0 H1 H2 s.
  enough (P s /\ forall c, P (String c s)) as [H _] by exact H.
  induction s as [|d r [IHr IHc]]; split; auto.
Qed.

Lemma contains_app (c : ascii) (a b : string) :
  contains c (a ++ b) = contains c a || contains c b.
Proof.
  induction a as [|x a IH]; simpl; [reflexivity|].
  rewrite IH. apply orb_assoc.
Qed.

Lemma contains_lstrip (c : ascii) (s : string) :
  contains c s = false -> contains c (lstrip s) = false.
Proof.
  destruct (lstrip_decomp s) as [ws [_ E]]. intros H.
  rewrite E, contains_app in H. apply orb_false_iff in H. tauto.
Qed.

Lemma contains_rstrip (c : ascii) (s : string) :
  contains c s = false -> contains c (rstrip s) = false.
Proof.
  destruct (rstrip_decomp s) as [ws [_ E]]. intros H.
  rewrite E, contains_app in H. apply orb_false_iff in H. tauto.
Qed.

Lemma contains_strip (c : ascii) (s : string) :
  contains c s = false -> contains c (strip s) = false.
Proof. intros H. apply contains_rstrip, contains_lstrip, H. Qed.

Lemma after_first_decomp (sep : ascii) (s r : string) :
  after_first sep s = Some r ->
  exists pre, s = (pre ++ String sep r)%string /\ contains sep pre = false.
Proof.
  revert r. induction s as [|c s IH]; simpl; intros r H; [discriminate|].
  destruct (Ascii.eqb_spec c sep) as [->|Hne].
  - injection H as ->. exists "". split; reflexivity.
  - destruct (IH r H) as [pre [-> Hpre]]. exists (String c pre).
    split; [reflexivity|]. simpl. rewrite Hpre.
    destruct (Ascii.eqb_spec c sep); [contradiction | reflexivity].
Qed.

Lemma contains_split1_last (c sep : ascii) (s : string) :
  contains c s = false -> contains c (split1_last sep s) = false.
Proof.
  intros H. unfold split1_last. destruct (after_first sep s) as [r|] eqn:E;
    [|exact H].
  destruct (after_first_decomp sep s r E) as [pre [-> _]].
  rewrite contains_app in H. apply orb_false_iff in H as [_ H].
  simpl in H. apply orb_false_iff in H. tauto.
Qed.

Lemma remove_stars_cons (c : ascii) (r : string) :
  Ascii.eqb c "*" = false ->
  remove_stars (String c r) = String c (remove_stars r).
Proof. intros H. simpl. rewrite H. destruct r; reflexivity. Qed.

Lemma remove_stars_cons2 (x d : ascii) (r : string) :
  remove_stars (String x (String d r))
  = if Ascii.eqb x "*" && Ascii.eqb d "*" then remove_stars r
    else String x (remove_stars (String d r)).
Proof. reflexivity. Qed.

Lemma contains_remove_stars (c : ascii) (s : string) :
  contains c s = false -> contains c (remove_stars s) = false.
Proof.
  induction s as [|x|x d r IHr IHd] using string_ind2; intros H;
    [exact H | exact H |].
  rewrite remove_stars_cons2.
  assert (contains c (String d r) = false) as Hd
    by (simpl in H; apply orb_false_iff in H; tauto).
  assert (contains c r = false) as Hr
    by (simpl in Hd; apply orb_false_iff in Hd; tauto).
  destruct (Ascii.eqb x "*" && Ascii.eqb d "*"); [exact (IHr Hr)|].
  cbn [contains]. rewrite (IHd Hd).
  simpl in H. apply orb_false_iff in H as [-> _]. reflexivity.
Qed.

Lemma star2_free_remove_stars (s : string) :
  star2_free (remove_stars s) = true.
Proof.
  induction s as [|x|x d r IHr IHd] using string_ind2;
    [reflexivity | reflexivity |].
  rewrite remove_stars_cons2.
  destruct (Ascii.eqb x "*" && Ascii.eqb d "*") eqn:E; [exact IHr|].
  cbn [star2_free]. rewrite IHd, andb_true_r.
  destruct (remove_stars (String d r)) as [|y t] eqn:Ey; [reflexivity|].
  destruct (Ascii.eqb x "*") eqn:Ex; [|reflexivity].
  simpl in E. rewrite (remove_stars_cons d r E) in Ey.
  injection Ey as <- _. rewrite E. reflexivity.
Qed.

Lemma remove_stars_fixed (s : string) :
  star2_free s = true -> remove_stars s = s.
Proof.
  induction s as [|c r IH]; [reflexivity|].
  cbn [star2_free remove_stars]. intros H.
  apply andb_true_iff in H as [H1 H2].
  destruct r as [|d r']; [reflexivity|].
  apply negb_true_iff in H1. rewrite H1. f_equal. exact (IH H2).
Qed.

Lemma star2_free_app (a b : string) :
  star2_free (a ++ b) = true -> star2_free a = true /\ star2_free b = true.
Proof.
  induction a as [|c a IH]; [simpl; auto|].
  cbn [append star2_free]. intros H.
  apply andb_true_iff in H as [H1 H2]. destruct (IH H2) as [Ha Hb].
  split; [|exact Hb]. rewrite Ha, andb_true_r.
  destruct a; [reflexivity | exact H1].
Qed.

Lemma star2_free_strip (s : string) :
  star2_free s = true -> star2_free (strip s) = true.
Proof.
  intros H. unfold strip.
  destruct (lstrip_decomp s) as [wl [_ El]].
  destruct (rstrip_decomp (lstrip s)) as [wr [_ Er]].
  rewrite El in H. apply star2_free_app in H as [_ H].
  rewrite Er in H. apply star2_free_app in H as [H _]. exact H.
Qed.

Lemma star2_free_split1_last (sep : ascii) (s : string) :
  star2_free s = true -> star2_free (split1_last sep s) = true.
Proof.
  intros H. unfold split1_last.
  destruct (after_first sep s) as [r|] eqn:E; [|exact H].
  destruct (after_first_decomp sep s r E) as [pre [-> _]].
  apply star2_free_app in H as [_ H].
  change (String sep r) with (String sep "" ++ r)%string in H.
  apply star2_free_app in H. tauto.
Qed.

Lemma length_lstrip (s : string) : String.length (lstrip s) <= String.length s.
Proof.
  induction s as [|c r IH]; simpl; [lia|].
  destruct (isspace c); simpl; lia.
Qed.

Lemma lstrip_fixed_head (c : ascii) (r : string) :
  lstrip (String c r) = String c r -> isspace c = false.
Proof.
  simpl. destruct (isspace c); [|reflexivity]. intros H.
  pose proof (length_lstrip r) as L. rewrite H in L. simpl in L. lia.
Qed.

Lemma lstrip_idem (s : string) : lstrip (lstrip s) = lstrip s.
Proof.
  induction s as [|c r IH]; simpl; [reflexivity|].
  destruct (isspace c) eqn:E; [exact IH|]. simpl. rewrite E. reflexivity.
Qed.

Lemma rstrip_idem (s : string) : rstrip (rstrip s) = rstrip s.
Proof.
  induction s as [|c r IH]; [reflexivity|]. cbn [rstrip].
  destruct (rstrip r) as [|d r'] eqn:E.
  - destruct (isspace c) eqn:Hc; [reflexivity|]. simpl. rewrite Hc. reflexivity.
  - cbn [rstrip] in *. rewrite IH. reflexivity.
Qed.

Lemma lstrip_rstrip (s : string) :
  lstrip s = s -> lstrip (rstrip s) = rstrip s.
Proof.
  destruct s as [|c r]; [reflexivity|]. intros H.
  pose proof (lstrip_fixed_head c r H) as Hc. cbn [rstrip].
  destruct (rstrip r); rewrite ?Hc; simpl; rewrite Hc; reflexivity.
Qed.

Lemma strip_stripped (s : string) : stripped (strip s).
Proof.
  unfold stripped, strip. split.
  - apply lstrip_rstrip, lstrip_idem.
  - apply rstrip_idem.
Qed.

Lemma stripped_strip (s : string) : stripped s -> strip s = s.
Proof. intros [Hl Hr]. unfold strip. rewrite Hl. exact Hr. Qed.

Lemma value_ok_strip (s : string) :
  contains NL s = false -> value_ok (strip s).
Proof.
  intros H. split; [apply strip_stripped | apply contains_strip, H].
Qed.

Lemma split_pieces_no_sep (sep : ascii) (s : string) :
  Forall (fun p => contains sep p = false) (split sep s).
Proof.
  induction s as [|c r IH]; simpl.
  - constructor; [reflexivity | constructor].
  - destruct (Ascii.eqb_spec c sep) as [->|Hne].
    + constructor; [reflexivity | exact IH].
    + destruct (split sep r) as [|p m]; inversion IH; subst;
        constructor; simpl; auto;
        destruct (Ascii.eqb_spec c sep); try contradiction; auto.
Qed.

Lemma split_pieces_keep (c sep : ascii) (s : string) :
  contains c s = false ->
  Forall (fun p => contains c p = false) (split sep s).
Proof.
  induction s as [|x r IH]; simpl; intros H.
  - constructor; [reflexivity | constructor].
  - apply orb_false_iff in H as [Hx Hr]. specialize (IH Hr).
    destruct (Ascii.eqb x sep).
    + constructor; [reflexivity | exact IH].
    + destruct (split sep r) as [|p m]; inversion IH; subst;
        constructor; simpl; auto; rewrite Hx; auto.
Qed.

Lemma clean_columns_ok (pieces : list string) :
  Forall (fun p => contains NL p = false) pieces ->
  Forall (fun p => contains "," p = false) pieces ->
  Forall column_ok (clean_columns pieces).
Proof.
  unfold clean_columns. intros Hn Hc.
  induction pieces as [|p ps IH]; simpl; [constructor|].
  inversion Hn; subst. inversion Hc; subst.
  destruct (truthy (strip p)) eqn:E; [|auto].
  simpl. constructor; [|auto].
  split; [apply value_ok_strip; assumption|].
  split; [apply contains_strip; assumption|].
  intros H. rewrite H in E. discriminate.
Qed.

(** ** The invariant of the loop *)

Lemma output_ok_snoc (l : list Insight) (i : Insight) :
  output_ok l -> insight_ok i -> dict_truthy i = true ->
  (l <> [] -> titled i) -> output_ok (l ++ [i]).
Proof.
  intros [H1 [H2 H3]] Hi Ht Hl. repeat split.
  - apply Forall_app. split; [exact H1 | constructor; [exact Hi | constructor]].
  - apply Forall_app. split; [exact H2 | constructor; [exact Ht | constructor]].
  - destruct l as [|x l]; [constructor|]. simpl in *.
    apply Forall_app. split; [exact H3|].
    constructor; [apply Hl; discriminate | constructor].
Qed.

Lemma parse_line_ok (st : ParserState) (raw : string) :
  contains NL raw = false -> state_ok st -> state_ok (parse_line st raw).
Proof.
  intros Hraw. destruct st as [insights current].
  intros [Hout [Hcur Htit]]. simpl in Hout, Hcur, Htit.
  pose proof (contains_strip NL raw Hraw) as Hline.
  assert (value_ok (strip (split1_last ":" (strip raw)))) as Hval
    by (apply value_ok_strip, contains_split1_last, Hline).
  destruct Hcur as [C1 [C2 [C3 [C4 C5]]]].
  unfold parse_line.
  destruct (starts_record (strip raw)).
  { split; [|split]; cbn [fst snd].
    - destruct (dict_truthy current) eqn:E; [|exact Hout].
      apply output_ok_snoc; auto. repeat split; assumption.
    - split; [|repeat split]. cbn. split.
      + apply value_ok_strip, contains_split1_last, contains_remove_stars, Hline.
      + apply star2_free_strip, star2_free_split1_last, star2_free_remove_stars.
    - intros _. reflexivity. }
  destruct (startswith (lower (strip raw)) "explanation:").
  { split; [exact Hout | split; [|exact Htit]].
    unfold insight_ok; cbn; tauto. }
  destruct (startswith (lower (strip raw)) "chart:").
  { split; [exact Hout | split; [|exact Htit]].
    unfold insight_ok; cbn; tauto. }
  destruct (startswith (lower (strip raw)) "columns:").
  { split; [exact Hout | split; [|exact Htit]].
    split; [exact C1 | split; [exact C2 | split; [exact C3 | split; [|exact C5]]]].
    cbn. apply clean_columns_ok.
    - apply split_pieces_keep. apply Hval.
    - apply split_pieces_no_sep. }
  destruct (startswith (lower (strip raw)) "tip:").
  { split; [exact Hout | split; [|exact Htit]].
    unfold insight_ok; cbn; tauto. }
  split; [exact Hout | split; [|exact Htit]].
  repeat split; assumption.
Qed.

Lemma parse_lines_ok (lines : list string) (st : ParserState) :
  Forall (fun l => contains NL l = false) lines ->
  state_ok st -> state_ok (parse_lines lines st).
Proof.
  unfold parse_lines. intros H. revert st.
  induction H as [|l ls Hl _ IH]; intros st Hst; simpl; [exact Hst|].
  apply IH, parse_line_ok; assumption.
Qed.

Lemma finish_ok (st : ParserState) : state_ok st -> output_ok (finish st).
Proof.
  destruct st as [insights current]. intros [Hout [Hcur Htit]].
  simpl in *. destruct (dict_truthy current && title_truthy current) eqn:E;
    [|exact Hout].
  apply andb_true_iff in E as [E1 E2].
  apply output_ok_snoc; auto.
Qed.

(** Every sequence that the parser returns is of the kind [output_ok]. *)
Lemma parse_output_ok (text : string) :
  output_ok (parse_detailed_insights text).
Proof.
  rewrite parse_detailed_insights_lines. apply finish_ok, parse_lines_ok.
  - apply split_pieces_no_sep.
  - split; [|split]; cbn [fst snd].
    + repeat split; constructor.
    + repeat split; exact I.
    + intros H. congruence.
Qed.

(** ** Parsing the lines written back *)

Lemma lstrip_app_nonspace (k x : string) :
  lstrip k = k -> k <> "" -> lstrip (k ++ x) = (k ++ x)%string.
Proof.
  destruct k as [|c r]; [congruence|]. intros H _.
  pose proof (lstrip_fixed_head c r H) as Hc. simpl. rewrite Hc. reflexivity.
Qed.

Lemma rstrip_app_stripped (a v : string) :
  rstrip v = v -> v <> "" -> rstrip (a ++ v) = (a ++ v)%string.
Proof.
  intros Hv Hne. induction a as [|c a IH]; [exact Hv|].
  cbn [append rstrip]. rewrite IH.
  destruct (a ++ v)%string eqn:E; [|reflexivity].
  destruct a; simpl in E; [congruence | discriminate].
Qed.

Lemma strip_spaced (v : string) : stripped v -> strip (spaced v) = v.
Proof.
  intros Hv. destruct v as [|c r]; [reflexivity|].
  change (spaced (String c r)) with (" " ++ String c r)%string.
  rewrite strip_app_space_l by reflexivity. apply stripped_strip, Hv.
Qed.

(** A label [k], a space and a stored value, stripped. *)
Lemma strip_labelled (k v : string) :
  stripped k -> k <> "" -> stripped v ->
  strip (k ++ " " ++ v) = (k ++ spaced v)%string.
Proof.
  intros [Hkl Hkr] Hk [Hvl Hvr]. destruct v as [|c r].
  - simpl spaced. rewrite (append_empty_r k).
    rewrite strip_app_space_r by reflexivity.
    apply stripped_strip. split; assumption.
  - unfold strip. rewrite lstrip_app_nonspace by assumption.
    change (k ++ " " ++ String c r)%string
      with (k ++ (" " ++ String c r))%string.
    rewrite <- append_assoc.
    rewrite rstrip_app_stripped by (assumption || discriminate).
    rewrite append_assoc. reflexivity.
Qed.

Lemma remove_stars_app_nostar (a b : string) :
  contains "*" a = false -> remove_stars (a ++ b) = (a ++ remove_stars b)%string.
Proof.
  induction a as [|c a IH]; [reflexivity|]. simpl contains. intros H.
  apply orb_false_iff in H as [Hc Ha].
  cbn [append]. rewrite remove_stars_cons by exact Hc.
  rewrite (IH Ha). reflexivity.
Qed.

Lemma remove_stars_spaced (t : string) :
  star2_free t = true -> remove_stars (spaced t) = spaced t.
Proof.
  intros H. destruct t as [|c r]; [reflexivity|].
  unfold spaced. rewrite remove_stars_cons by reflexivity.
  rewrite (remove_stars_fixed _ H). reflexivity.
Qed.

Ltac label_stripped := split; [reflexivity | reflexivity].

Lemma parse_title_line (acc : list Insight) (cur : Insight) (t : string) :
  title_ok t ->
  parse_line (acc, cur) ("Title: " ++ t)
  = (if dict_truthy cur then acc ++ [cur] else acc, title_dict t).
Proof.
  intros [[Hs _] Hfree]. unfold parse_line.
  change ("Title: " ++ t)%string with ("Title:" ++ " " ++ t)%string.
  rewrite (strip_labelled "Title:" t) by (label_stripped || discriminate || exact Hs).
  assert (starts_record ("Title:" ++ spaced t) = true) as -> by reflexivity.
  rewrite remove_stars_app_nostar by reflexivity.
  rewrite (remove_stars_spaced t Hfree).
  change (split1_last ":" ("Title:" ++ spaced t)) with (spaced t).
  rewrite (strip_spaced t Hs). reflexivity.
Qed.

Lemma parse_explanation_line (acc : list Insight) (cur : Insight) (v : string) :
  stripped v ->
  parse_line (acc, cur) ("Explanation: " ++ v)
  = (acc, set_explanation cur v).
Proof.
  intros Hs. unfold parse_line.
  change ("Explanation: " ++ v)%string with ("Explanation:" ++ " " ++ v)%string.
  rewrite (strip_labelled "Explanation:" v)
    by (label_stripped || discriminate || exact Hs).
  assert (starts_record ("Explanation:" ++ spaced v) = false) as ->
    by reflexivity.
  assert (startswith (lower ("Explanation:" ++ spaced v)) "explanation:" = true)
    as -> by reflexivity.
  change (split1_last ":" ("Explanation:" ++ spaced v)) with (spaced v).
  rewrite (strip_spaced v Hs). reflexivity.
Qed.

Lemma parse_chart_line (acc : list Insight) (cur : Insight) (v : string) :
  stripped v ->
  parse_line (acc, cur) ("Chart: " ++ v) = (acc, set_chart cur v).
Proof.
  intros Hs. unfold parse_line.
  change ("Chart: " ++ v)%string with ("Chart:" ++ " " ++ v)%string.
  rewrite (strip_labelled "Chart:" v)
    by (label_stripped || discriminate || exact Hs).
  assert (starts_record ("Chart:" ++ spaced v) = false) as -> by reflexivity.
  assert (startswith (lower ("Chart:" ++ spaced v)) "explanation:" = false)
    as -> by reflexivity.
  assert (startswith (lower ("Chart:" ++ spaced v)) "chart:" = true)
    as -> by reflexivity.
  change (split1_last ":" ("Chart:" ++ spaced v)) with (spaced v).
  rewrite (strip_spaced v Hs). reflexivity.
Qed.

Lemma parse_tip_line (acc : list Insight) (cur : Insight) (v : string) :
  stripped v ->
  parse_line (acc, cur) ("Tip: " ++ v) = (acc, set_tip cur v).
Proof.
  intros Hs. unfold parse_line.
  change ("Tip: " ++ v)%string with ("Tip:" ++ " " ++ v)%string.
  rewrite (strip_labelled "Tip:" v)
    by (label_stripped || discriminate || exact Hs).
  assert (starts_record ("Tip:" ++ spaced v) = false) as -> by reflexivity.
  assert (startswith (lower ("Tip:" ++ spaced v)) "explanation:" = false)
    as -> by reflexivity.
  assert (startswith (lower ("Tip:" ++ spaced v)) "chart:" = false)
    as -> by reflexivity.
  assert (startswith (lower ("Tip:" ++ spaced v)) "columns:" = false)
    as -> by reflexivity.
  assert (startswith (lower ("Tip:" ++ spaced v)) "tip:" = true)
    as -> by reflexivity.
  change (split1_last ":" ("Tip:" ++ spaced v)) with (spaced v).
  rewrite (strip_spaced v Hs). reflexivity.
Qed.

Lemma split_no_sep (sep : ascii) (s : string) :
  contains sep s = false -> split sep s = [s].
Proof.
  induction s as [|c r IH]; [reflexivity|]. simpl. intros H.
  apply orb_false_iff in H as [Hc Hr]. rewrite Hc, (IH Hr). reflexivity.
Qed.

Lemma split_app_sep (sep : ascii) (a r : string) :
  contains sep a = false ->
  split sep (a ++ String sep r) = a :: split sep r.
Proof.
  induction a as [|c a IH]; simpl; intros H.
  - rewrite Ascii.eqb_refl. reflexivity.
  - apply orb_false_iff in H as [Hc Ha]. rewrite Hc, (IH Ha). reflexivity.
Qed.

Lemma join_cons2 (sep x y : string) (m : list string) :
  join sep (x :: y :: m) = (x ++ sep ++ join sep (y :: m))%string.
Proof. reflexivity. Qed.

Lemma join_columns_nonempty (c : string) (cs : list string) :
  c <> "" -> join ", " (c :: cs) <> "".
Proof.
  intros Hc. destruct cs as [|y m]; [exact Hc|].
  rewrite join_cons2. destruct c; [congruence | discriminate].
Qed.

Lemma join_columns_ok (cs : list string) :
  Forall column_ok cs -> value_ok (join ", " cs).
Proof.
  induction 1 as [|c cs [[[Hl Hr] Hn] [_ Hne]] Hcs IH].
  - repeat split.
  - destruct cs as [|y m]; [repeat split; assumption|].
    rewrite join_cons2. destruct IH as [[IHl IHr] IHn].
    inversion Hcs as [|? ? [_ [_ Hy]] _]; subst.
    repeat split.
    + apply lstrip_app_nonspace; assumption.
    + rewrite <- append_assoc. apply rstrip_app_stripped; [exact IHr|].
      apply join_columns_nonempty, Hy.
    + rewrite !contains_app, Hn, IHn. reflexivity.
Qed.

Lemma clean_columns_cons (x : string) (l : list string) :
  clean_columns (x :: l)
  = if truthy (strip x) then strip x :: clean_columns l else clean_columns l.
Proof. unfold clean_columns. simpl. destruct (truthy (strip x)); reflexivity. Qed.

Lemma clean_split_join (pre : string) (cs : list string) :
  all_space pre = true -> contains "," pre = false ->
  Forall column_ok cs -> cs <> [] ->
  clean_columns (split "," (pre ++ join ", " cs)) = cs.
Proof.
  intros Hsp Hpre Hcs. revert pre Hsp Hpre.
  induction Hcs as [|c cs [[Hs _] [Hc Hne]] Hcs IH]; intros pre Hsp Hpre Hnil;
    [congruence|].
  assert (strip (pre ++ c) = c) as Hstrip
    by (rewrite strip_app_space_l by exact Hsp; apply stripped_strip, Hs).
  assert (truthy c = true) as Htruthy by (destruct c; [congruence|reflexivity]).
  destruct cs as [|y m].
  - simpl join. rewrite split_no_sep
      by (rewrite contains_app, Hpre, Hc; reflexivity).
    rewrite clean_columns_cons, Hstrip, Htruthy. reflexivity.
  - rewrite join_cons2.
    change (pre ++ c ++ ", " ++ join ", " (y :: m))%string
      with (pre ++ (c ++ String "," (" " ++ join ", " (y :: m))))%string.
    rewrite <- append_assoc.
    rewrite split_app_sep by (rewrite contains_app, Hpre, Hc; reflexivity).
    rewrite clean_columns_cons, Hstrip, Htruthy. f_equal.
    apply IH; [reflexivity | reflexivity | discriminate].
Qed.

Lemma parse_columns_line (acc : list Insight) (cur : Insight)
      (cs : list string) :
  Forall column_ok cs ->
  parse_line (acc, cur) ("Columns: " ++ join ", " cs)
  = (acc, set_columns cur cs).
Proof.
  intros Hcs. destruct (join_columns_ok cs Hcs) as [Hs _].
  unfold parse_line.
  change ("Columns: " ++ join ", " cs)%string
    with ("Columns:" ++ " " ++ join ", " cs)%string.
  rewrite (strip_labelled "Columns:" (join ", " cs))
    by (label_stripped || discriminate || exact Hs).
  set (v := spaced (join ", " cs)).
  assert (starts_record ("Columns:" ++ v) = false) as -> by reflexivity.
  assert (startswith (lower ("Columns:" ++ v)) "explanation:" = false)
    as -> by reflexivity.
  assert (startswith (lower ("Columns:" ++ v)) "chart:" = false)
    as -> by reflexivity.
  assert (startswith (lower ("Columns:" ++ v)) "columns:" = true)
    as -> by reflexivity.
  change (split1_last ":" ("Columns:" ++ v)) with v.
  subst v. rewrite (strip_spaced _ Hs). f_equal. f_equal.
  destruct cs as [|c cs']; [reflexivity|].
  apply (clean_split_join "" (c :: cs')); auto. discriminate.
Qed.

Lemma parse_lines_app (a b : list string) (st : ParserState) :
  parse_lines (a ++ b) st = parse_lines b (parse_lines a st).
Proof. apply fold_left_app. Qed.

Lemma parse_field_lines (acc : list Insight) (cur i : Insight) :
  insight_ok i ->
  parse_lines (field_lines i) (acc, cur) = (acc, with_fields cur i).
Proof.
  destruct i as [t e c cols tp]. intros [_ [He [Hc [Hcols Htp]]]].
  unfold field_lines, with_fields, parse_lines.
  cbn [explanation chart columns tip title] in *.
  destruct e as [e|], c as [c|], cols as [cols|], tp as [tp|];
    cbn [label_line option_map app fold_left opt_ok] in *;
    repeat first
      [ rewrite parse_explanation_line by apply He
      | rewrite parse_chart_line by apply Hc
      | rewrite parse_columns_line by exact Hcols
      | rewrite parse_tip_line by apply Htp ];
    reflexivity.
Qed.

Lemma with_fields_titled (i : Insight) (t : string) :
  title i = Some t -> with_fields (title_dict t) i = i.
Proof.
  destruct i as [t' e c cols tp]. simpl. intros ->.
  destruct e, c, cols, tp; reflexivity.
Qed.

Lemma with_fields_untitled (i : Insight) :
  title i = None -> with_fields empty_dict i = i.
Proof.
  destruct i as [t' e c cols tp]. simpl. intros ->.
  destruct e, c, cols, tp; reflexivity.
Qed.

Lemma serialize_insight_lines (i : Insight) :
  serialize_insight i = label_line "Title: " (title i) ++ field_lines i.
Proof. reflexivity. Qed.

Lemma parse_insight_titled (acc : list Insight) (cur i : Insight) :
  insight_ok i -> titled i ->
  parse_lines (serialize_insight i) (acc, cur)
  = (if dict_truthy cur then acc ++ [cur] else acc, i).
Proof.
  intros Hi Ht. rewrite serialize_insight_lines, parse_lines_app.
  unfold titled in Ht. destruct (title i) as [t|] eqn:E; [|discriminate].
  cbn [label_line]. unfold parse_lines at 2. cbn [fold_left].
  rewrite parse_title_line
    by (destruct Hi as [H _]; rewrite E in H; exact H).
  rewrite (parse_field_lines _ _ i Hi), (with_fields_titled i t E).
  reflexivity.
Qed.

Lemma parse_insight_first (i : Insight) :
  insight_ok i ->
  parse_lines (serialize_insight i) ([], empty_dict) = ([], i).
Proof.
  intros Hi. destruct (title i) as [t|] eqn:E.
  - rewrite parse_insight_titled; [reflexivity | exact Hi |].
    unfold titled. rewrite E. reflexivity.
  - rewrite serialize_insight_lines, E. cbn [label_line app].
    rewrite (parse_field_lines _ _ i Hi), (with_fields_untitled i E).
    reflexivity.
Qed.

Lemma last_cons_default (i d : Insight) (rest : list Insight) :
  last (i :: rest) d = last rest i.
Proof.
  revert i d. induction rest as [|j rest IH]; intros i d; [reflexivity|].
  change (last (i :: j :: rest) d) with (last (j :: rest) d).
  rewrite (IH j d), (IH j i). reflexivity.
Qed.

Lemma parse_rest (acc : list Insight) (cur : Insight) (rest : list Insight) :
  dict_truthy cur = true ->
  Forall insight_ok rest -> Forall titled rest ->
  Forall (fun i => dict_truthy i = true) rest ->
  parse_lines (flat_map serialize_insight rest) (acc, cur)
  = (removelast (acc ++ cur :: rest), last rest cur).
Proof.
  intros Hcur Hok. revert acc cur Hcur.
  induction Hok as [|i rest Hi _ IH]; intros acc cur Hcur Htit Htru.
  - simpl. rewrite removelast_last. reflexivity.
  - inversion Htit; subst. inversion Htru; subst.
    cbn [flat_map]. rewrite parse_lines_app.
    rewrite (parse_insight_titled acc cur i Hi) by assumption.
    rewrite Hcur, IH by assumption.
    rewrite <- app_assoc. cbn [app].
    rewrite (last_cons_default i cur rest). reflexivity.
Qed.

(** The loop on the lines of a sequence written back, and what follows
    the loop. *)
Lemma reparse_lines (l : list Insight) :
  output_ok l ->
  finish (parse_lines (flat_map serialize_insight l) ([], empty_dict))
  = if title_truthy (last l empty_dict) then l else removelast l.
Proof.
  intros [Hok [Htru Htit]]. destruct l as [|i rest]; [reflexivity|].
  inversion Hok; subst. inversion Htru; subst. simpl in Htit.
  cbn [flat_map]. rewrite parse_lines_app, (parse_insight_first i) by assumption.
  rewrite parse_rest by assumption.
  rewrite (last_cons_default i empty_dict rest).
  cbn [app finish].
  assert (dict_truthy (last rest i) = true) as ->.
  { clear - H3 H4. revert i H3.
    induction H4 as [|j rest Hj _ IH]; intros i Hi; [exact Hi|].
    rewrite last_cons_default. apply IH, Hj. }
  cbn [andb]. destruct (title_truthy (last rest i)); [|reflexivity].
  rewrite <- (last_cons_default i i rest).
  symmetry. apply app_removelast_last. discriminate.
Qed.

Lemma split_join_lines (lines : list string) :
  lines <> [] -> Forall (fun l => contains NL l = false) lines ->
  split NL (join (String NL "") lines) = lines.
Proof.
  intros Hne H. induction H as [|x ls Hx Hls IH]; [congruence|].
  destruct ls as [|y m]; [apply split_no_sep, Hx|].
  rewrite join_cons2.
  change (x ++ String NL "" ++ join (String NL "") (y :: m))%string
    with (x ++ String NL (join (String NL "") (y :: m)))%string.
  rewrite split_app_sep by exact Hx. f_equal. apply IH. discriminate.
Qed.

Lemma label_line_no_nl (label : string) (v : option string) :
  contains NL label = false ->
  opt_ok (fun s => contains NL s = false) v ->
  Forall (fun l => contains NL l = false) (label_line label v).
Proof.
  intros Hl Hv. destruct v as [s|]; [|constructor].
  constructor; [|constructor]. rewrite contains_app, Hl. exact Hv.
Qed.

Lemma opt_value_no_nl (v : option string) :
  opt_ok value_ok v -> opt_ok (fun s => contains NL s = false) v.
Proof. destruct v; [intros [_ H]; exact H | auto]. Qed.

Lemma serialize_insight_no_nl (i : Insight) :
  insight_ok i ->
  Forall (fun l => contains NL l = false) (serialize_insight i).
Proof.
  intros [Ht [He [Hc [Hcols Htp]]]]. unfold serialize_insight.
  apply Forall_app; split.
  { apply label_line_no_nl; [reflexivity|].
    destruct (title i); [apply Ht | exact I]. }
  apply Forall_app; split.
  { apply label_line_no_nl; [reflexivity | apply opt_value_no_nl, He]. }
  apply Forall_app; split.
  { apply label_line_no_nl; [reflexivity | apply opt_value_no_nl, Hc]. }
  apply Forall_app; split.
  { apply label_line_no_nl; [reflexivity|].
    destruct (columns i) as [cs|]; [|exact I].
    apply (join_columns_ok cs Hcols). }
  apply label_line_no_nl; [reflexivity | apply opt_value_no_nl, Htp].
Qed.

Lemma serialize_no_nl (l : list Insight) :
  Forall insight_ok l ->
  Forall (fun s => contains NL s = false) (flat_map serialize_insight l).
Proof.
  induction 1 as [|i l Hi _ IH]; [constructor|].
  cbn [flat_map]. apply Forall_app. split;
    [apply serialize_insight_no_nl, Hi | exact IH].
Qed.

(** Parsing the lines written back of any sequence the parser can
    return gives the sequence again when its last insight has a title
    that is not empty, and the sequence without its last insight when
    it has not. *)
Theorem reparse_serialized (text : string) :
  let l := parse_detailed_insights text in
  parse_detailed_insights (serialize l)
  = if title_truthy (last l empty_dict) then l else removelast l.
Proof.
  intros l. pose proof (parse_output_ok text) as Hl. fold l in Hl.
  rewrite parse_detailed_insights_lines. unfold serialize.
  rewrite <- (reparse_lines l Hl). f_equal.
  destruct (flat_map serialize_insight l) as [|x m] eqn:E; [reflexivity|].
  rewrite split_join_lines; [reflexivity | discriminate |].
  rewrite <- E. apply serialize_no_nl, Hl.
Qed.

(** A reply in which no line starts a record gives no insight: what its
    field lines store is dropped after the loop, the dict having no
    title. *)
Lemma no_record_line_no_insight (text : string) :
  Forall (fun l => starts_record (strip l) = false)
         (split NL (strip text)) ->
  parse_detailed_insights text = [].
Proof.
  unfold parse_detailed_insights. intros H.
  assert (forall st, fst st = [] -> title (snd st) = None ->
            let st' := fold_left parse_line (split NL (strip text)) st in
            fst st' = [] /\ title (snd st') = None) as Hinv.
  { induction H as [|l ls Hl _ IH]; intros st H1 H2; [split; assumption|].
    cbn [fold_left]. apply IH; destruct st as [ins cur]; unfold parse_line;
      rewrite Hl;
      repeat match goal with
             | |- context [if ?b then _ else _] => destruct b
             end; assumption. }
  destruct (Hinv ([], empty_dict) eq_refl eq_refl) as [H1 H2].
  destruct (fold_left parse_line (split NL (strip text)) ([], empty_dict))
    as [ins cur].
  simpl in *. subst ins. unfold title_truthy. rewrite H2, andb_false_r.
  reflexivity.
Qed.

(** ** The chart selector and renderer: lemmas *)

Section RendererFacts.

Context {World Figure : Type}.
Variable px : DataFrame -> PxCall -> M World Figure.
Variable write_png_b64 : Figure -> M World string.

Lemma getitem_lookup (df : DataFrame) (c : string) (w : World) :
  getitem df c w =
  match lookup df c with
  | Some s => (inr s, w)
  | None => (inl ("'" ++ c ++ "'")%string, w)
  end.
Proof.
  induction df as [|[name col] rest IH]; simpl; [reflexivity|].
  destruct (String.eqb name c); [reflexivity | apply IH].
Qed.

Lemma has_column_lookup (df : DataFrame) (c : string) :
  has_column df c = true -> exists s, lookup df c = Some s.
Proof.
  unfold has_column, df_columns.
  induction df as [|[name col] rest IH]; simpl; [discriminate|].
  rewrite (String.eqb_sym c name).
  destruct (String.eqb name c); simpl; eauto.
Qed.

Lemma any_missing_false (df : DataFrame) (cols : list string) :
  any_missing df cols = false ->
  forall c, In c cols -> has_column df c = true.
Proof.
  unfold any_missing. intros H c Hin.
  destruct (has_column df c) eqn:E; [reflexivity|].
  assert (existsb (fun c => negb (has_column df c)) cols = true) as X.
  { apply existsb_exists. exists c. rewrite E. auto. }
  congruence.
Qed.

Ltac run_render px write :=
  match goal with
  | |- context [px ?d ?c ?w] =>
      destruct (px d c w) as [[?|?] ?]; [reflexivity|]
  end;
  match goal with
  | |- context [write ?f ?w] =>
      destruct (write f w) as [[?|?] ?]; reflexivity
  end.

(** On columns that pass the validation, [plot_chart] is the rendering
    of the chart picked by [select_chart]. *)
Lemma plot_chart_selected (df : DataFrame) (insight : Insight)
      (c1 : string) (rest : list string) (w : World) :
  get_columns insight = c1 :: rest ->
  any_missing df (c1 :: rest) = false ->
  exists t1,
    column_dtype df c1 = Some t1 /\
    plot_chart px write_png_b64 df insight w =
    render_call px write_png_b64 df
      (select_chart c1 t1 (second_column df (c1 :: rest))) w.
Proof.
  intros Hcols Hok.
  pose proof (any_missing_false _ _ Hok) as Hall.
  destruct (has_column_lookup df c1 (Hall c1 (or_introl eq_refl)))
    as [s1 Hs1].
  exists (dtype s1). unfold column_dtype. rewrite Hs1. split; [reflexivity|].
  unfold plot_chart, render_call, try_except, and_then,
    dtype_is_object, dtype_not_object, bind, ret.
  rewrite Hcols, Hok.
  cbn [length Nat.ltb Nat.leb negb orb nth_error second_column].
  destruct rest as [|c2 rest'].
  - cbn -[getitem append]. rewrite getitem_lookup, Hs1.
    destruct s1 as [[] cells1]; cbn -[append]; run_render px write_png_b64.
  - cbn -[getitem append truthy column_dtype]. destruct (truthy c2) eqn:Ht.
    + destruct (has_column_lookup df c2
                  (Hall c2 (or_intror (or_introl eq_refl)))) as [s2 Hs2].
      unfold column_dtype. rewrite Hs2.
      destruct s1 as [[] cells1]; destruct s2 as [[] cells2];
        repeat (first [rewrite getitem_lookup | rewrite Hs1 | rewrite Hs2];
                cbn -[getitem append]);
        run_render px write_png_b64.
    + rewrite getitem_lookup, Hs1.
      destruct s1 as [[] cells1]; cbn -[append]; run_render px write_png_b64.
Qed.

(** [render_call] returns a pair with exactly one side set. *)
Lemma render_call_shape (df : DataFrame) (call : PxCall) (w : World) :
  exists w',
    (exists img, render_call px write_png_b64 df call w
                 = (inr (Pair (Some img) None), w'))
    \/ (exists msg, render_call px write_png_b64 df call w
                    = (inr (Pair None (Some msg)), w')).
Proof.
  unfold render_call, try_except, bind, ret.
  destruct (px df call w) as [[e|f] w1]; [eauto|].
  destruct (write_png_b64 f w1) as [[e|img] w2]; eauto.
Qed.

Lemma plot_chart_invalid (df : DataFrame) (insight : Insight) (w : World) :
  get_columns insight = [] \/ any_missing df (get_columns insight) = true ->
  plot_chart px write_png_b64 df insight w
  = (inr (Pair None (Some MISSING_COLUMNS)), w).
Proof.
  intros H. unfold plot_chart, try_except.
  destruct H as [H|H]; rewrite H; [reflexivity|].
  rewrite orb_true_r. reflexivity.
Qed.

(** [plot_chart] returns a pair with exactly one side set. *)
Lemma render_result_is_pair (df : DataFrame) (insight : Insight) (w : World) :
  exists chart error w',
    plot_chart px write_png_b64 df insight w = (inr (Pair chart error), w')
    /\ ((exists img, chart = Some img /\ error = None)
        \/ (exists msg, chart = None /\ error = Some msg)).
Proof.
  destruct (get_columns insight) as [|c1 rest] eqn:Hcols.
  - exists None, (Some MISSING_COLUMNS), w. split; [|right; eauto].
    apply plot_chart_invalid. left. exact Hcols.
  - destruct (any_missing df (c1 :: rest)) eqn:Hok.
    + exists None, (Some MISSING_COLUMNS), w. split; [|right; eauto].
      apply plot_chart_invalid. right. rewrite Hcols. exact Hok.
    + destruct (plot_chart_selected df insight c1 rest w Hcols Hok)
        as [t1 [_ ->]].
      destruct (render_call_shape df
                  (select_chart c1 t1 (second_column df (c1 :: rest))) w)
        as [w' [[img H]|[msg H]]]; rewrite H.
      * exists (Some img), None, w'. split; [reflexivity | left; eauto].
      * exists None, (Some msg), w'. split; [reflexivity | right; eauto].
Qed.

End RendererFacts.

(** C5: when the columns list of the insight is empty, or a column it
    names is not in the table, [plot_chart] returns
    [(None, "Missing or invalid columns")] and leaves the outside world
    as it found it, whatever the renderer is: no render is attempted. *)
Theorem missing_columns_no_render :
  forall (World Figure : Type)
         (px : DataFrame -> PxCall -> M World Figure)
         (write_png_b64 : Figure -> M World string)
         (df : DataFrame) (insight : Insight) (w : World),
    get_columns insight = []
    \/ (exists c, In c (get_columns insight) /\ has_column df c = false) ->
    plot_chart px write_png_b64 df insight w
    = (inr (Pair None (Some "Missing or invalid columns")), w).
Proof.
  intros World Figure px write df insight w [H|[c [Hin Hc]]].
  - apply plot_chart_invalid. left. exact H.
  - apply plot_chart_invalid. right. unfold any_missing.
    apply existsb_exists. exists c. rewrite Hc. auto.
Qed.

Lemma missing_columns_no_render_witness :
  plot_chart log_px log_write sales_table
             (insight_with_columns ["Region"; "Profit"]) []
  = (inr (Pair None (Some "Missing or invalid columns")), []).
Proof.
  apply (missing_columns_no_render Log unit log_px log_write sales_table
           (insight_with_columns ["Region"; "Profit"]) []).
  right. exists "Profit". split; [simpl; auto | reflexivity].
Defined.

(** C3, as the code has it: when every column of the insight is in the
    table, the second name is not empty, the first column is categorical
    and the second numeric, [plot_chart] groups by the first column,
    takes the mean of the second per group and renders the bar chart of
    the first against that mean. *)
Theorem categorical_then_numeric_bar_of_means :
  forall (World Figure : Type)
         (px : DataFrame -> PxCall -> M World Figure)
         (write_png_b64 : Figure -> M World string)
         (df : DataFrame) (insight : Insight)
         (c1 c2 : string) (rest : list string) (t2 : Dtype) (w : World),
    get_columns insight = c1 :: c2 :: rest ->
    any_missing df (c1 :: c2 :: rest) = false ->
    c2 <> "" ->
    column_dtype df c1 = Some object ->
    column_dtype df c2 = Some t2 -> t2 <> object ->
    plot_chart px write_png_b64 df insight w
    = render_call px write_png_b64 df
        (px_bar (GroupMean c1 c2) c1 c2 None (c1 ++ " vs " ++ c2)%string) w.
Proof.
  intros World Figure px write df insight c1 c2 rest t2 w
         Hcols Hok Hne H1 H2 Hnum.
  destruct (plot_chart_selected px write df insight c1 (c2 :: rest) w Hcols Hok)
    as [t1 [Ht1 ->]].
  rewrite H1 in Ht1. injection Ht1 as <-.
  unfold second_column. rewrite H2.
  destruct c2 as [|a c2']; [congruence|]. cbn [truthy select_chart].
  destruct t2; [congruence| | |]; reflexivity.
Qed.

Lemma categorical_then_numeric_witness :
  plot_chart log_px log_write sales_table
             (insight_with_columns ["Region"; "Sales"]) []
  = render_call log_px log_write sales_table
      (px_bar (GroupMean "Region" "Sales") "Region" "Sales" None
              "Region vs Sales") [].
Proof.
  apply (categorical_then_numeric_bar_of_means Log unit log_px log_write
           sales_table (insight_with_columns ["Region"; "Sales"])
           "Region" "Sales" [] float64 []);
    try reflexivity; discriminate.
Defined.

(** C3 as it is stated fails: the third column of this insight is not in
    the table, and [plot_chart] answers "Missing or invalid columns"
    although the first two columns exist and are one categorical, one
    numeric. *)
Lemma mixed_pair_claim_fails : ~ mixed_pair_claim.
Proof.
  intros H.
  destruct (H Log unit log_px log_write sales_table
              (insight_with_columns ["Region"; "Sales"; "Profit"])
              "Region" "Sales" ["Profit"] object float64 []
              eq_refl eq_refl eq_refl eq_refl) as [t Ht].
  vm_compute in Ht. discriminate Ht.
Qed.

(** The same claim on the pair in the other order: the code groups by
    the first column, here the numeric one, and takes the mean of the
    categorical one. *)
Example numeric_then_categorical_run :
  plot_chart log_px log_write sales_table
             (insight_with_columns ["Sales"; "Region"]) []
  = (inr (Pair (Some "iVBORw0KGgo=") None),
     [px_bar (GroupMean "Sales" "Region") "Sales" "Region" None
             "Sales vs Region"]).
Proof. vm_compute. reflexivity. Qed.

(** C6: [plot_chart] reads nothing of the insight but its columns, so
    two insights with the same columns and any chart hints give the same
    result; and on columns that pass the validation the result is the
    rendering of [select_chart], a function of the first column name,
    its dtype and the second column name and dtype alone. *)
Theorem chart_choice_ignores_hint :
  forall (World Figure : Type)
         (px : DataFrame -> PxCall -> M World Figure)
         (write_png_b64 : Figure -> M World string)
         (df : DataFrame) (w : World),
    (forall i1 i2 : Insight,
        columns i1 = columns i2 ->
        plot_chart px write_png_b64 df i1 w
        = plot_chart px write_png_b64 df i2 w)
    /\ (forall (insight : Insight) (c1 : string) (rest : list string),
           get_columns insight = c1 :: rest ->
           any_missing df (c1 :: rest) = false ->
           exists t1,
             column_dtype df c1 = Some t1 /\
             plot_chart px write_png_b64 df insight w
             = render_call px write_png_b64 df
                 (select_chart c1 t1 (second_column df (firstn 2 (c1 :: rest))))
                 w).
Proof.
  intros World Figure px write df w. split.
  - intros i1 i2 H. unfold plot_chart, get_columns. rewrite H. reflexivity.
  - intros insight c1 rest Hcols Hok.
    destruct (plot_chart_selected px write df insight c1 rest w Hcols Hok)
      as [t1 [Ht1 Heq]].
    exists t1. split; [exact Ht1|]. rewrite Heq.
    destruct rest as [|c2 rest']; reflexivity.
Qed.

Lemma chart_choice_ignores_hint_witness :
  plot_chart log_px log_write sales_table
    (mkInsight (Some "Revenue Growth") None (Some "scatter")
               (Some ["Sales"; "Units"]) None) []
  = plot_chart log_px log_write sales_table
      (mkInsight (Some "Units sold") (Some "why") None
                 (Some ["Sales"; "Units"]) (Some "tip")) []
  /\ exists t1,
       column_dtype sales_table "Sales" = Some t1
       /\ plot_chart log_px log_write sales_table
            (mkInsight (Some "Revenue Growth") None (Some "bar")
                       (Some ["Sales"; "Units"; "Region"]) None) []
          = render_call log_px log_write sales_table
              (select_chart "Sales" t1
                 (second_column sales_table
                    (firstn 2 ["Sales"; "Units"; "Region"]))) [].
Proof.
  split.
  - apply (proj1 (chart_choice_ignores_hint Log unit log_px log_write
                    sales_table [])).
    reflexivity.
  - apply (proj2 (chart_choice_ignores_hint Log unit log_px log_write
                    sales_table [])
                 (mkInsight (Some "Revenue Growth") None (Some "bar")
                            (Some ["Sales"; "Units"; "Region"]) None)
                 "Sales" ["Units"; "Region"]); reflexivity.
Defined.

(** C7: [plot_chart] never raises and never ends without a pair: it
    returns either an image with no error or no image with a message.
    When building the chosen figure raises, or writing it does, the
    message is that of the exception. *)
Theorem plot_chart_never_raises :
  forall (World Figure : Type)
         (px : DataFrame -> PxCall -> M World Figure)
         (write_png_b64 : Figure -> M World string)
         (df : DataFrame) (insight : Insight) (w : World),
    (exists w',
        (exists img, plot_chart px write_png_b64 df insight w
                     = (inr (Pair (Some img) None), w'))
        \/ (exists msg, plot_chart px write_png_b64 df insight w
                        = (inr (Pair None (Some msg)), w')))
    /\ (forall c1 rest t1,
           get_columns insight = c1 :: rest ->
           any_missing df (c1 :: rest) = false ->
           column_dtype df c1 = Some t1 ->
           let call := select_chart c1 t1 (second_column df (c1 :: rest)) in
           (forall e w1,
               px df call w = (inl e, w1) ->
               plot_chart px write_png_b64 df insight w
               = (inr (Pair None (Some e)), w1))
           /\ (forall f w1 e w2,
                  px df call w = (inr f, w1) ->
                  write_png_b64 f w1 = (inl e, w2) ->
                  plot_chart px write_png_b64 df insight w
                  = (inr (Pair None (Some e)), w2))).
Proof.
  intros World Figure px write df insight w. split.
  - destruct (get_columns insight) as [|c1 rest] eqn:Hcols.
    + exists w. right. exists MISSING_COLUMNS.
      apply plot_chart_invalid. left. exact Hcols.
    + destruct (any_missing df (c1 :: rest)) eqn:Hok.
      * exists w. right. exists MISSING_COLUMNS.
        apply plot_chart_invalid. right. rewrite Hcols. exact Hok.
      * destruct (plot_chart_selected px write df insight c1 rest w Hcols Hok)
          as [t1 [_ ->]].
        apply render_call_shape.
  - intros c1 rest t1 Hcols Hok Ht1 call.
    destruct (plot_chart_selected px write df insight c1 rest w Hcols Hok)
      as [t1' [Ht1' Heq]].
    rewrite Ht1 in Ht1'. injection Ht1' as <-.
    rewrite Heq. fold call. unfold render_call, try_except, bind, ret.
    split.
    + intros e w1 ->. reflexivity.
    + intros f w1 e w2 -> ->. reflexivity.
Qed.

Lemma plot_chart_never_raises_witness :
  plot_chart failing_px log_write sales_table
             (insight_with_columns ["Region"; "Sales"]) []
  = (inr (Pair None (Some "Image export requires the kaleido package")),
     [px_bar (GroupMean "Region" "Sales") "Region" "Sales" None
             "Region vs Sales"]).
Proof.
  apply (proj1 (proj2 (plot_chart_never_raises Log unit failing_px log_write
                         sales_table
                         (insight_with_columns ["Region"; "Sales"]) [])
                      "Region" ["Sales"] object eq_refl eq_refl eq_refl)).
  reflexivity.
Defined.

(** ** The orchestrator: lemmas *)

Lemma length_lower (s : string) : String.length (lower s) = String.length s.
Proof. induction s; simpl; congruence. Qed.

Lemma substring_suffix (s : string) (m : nat) :
  m <= String.length s ->
  exists pre, s = (pre ++ substring (String.length s - m) m s)%string
              /\ String.length (substring (String.length s - m) m s) = m.
Proof.
  induction s as [|c r IH]; intros Hm.
  - simpl in Hm. assert (m = 0) as -> by lia. exists "". split; reflexivity.
  - simpl in Hm. destruct (Nat.eq_dec m (S (String.length r))) as [->|Hne].
    + exists "". cbn [String.length]. rewrite Nat.sub_diag.
      clear. split.
      * simpl. f_equal.
        induction r as [|d r IH]; simpl; [reflexivity|]. f_equal. exact IH.
      * simpl. f_equal.
        induction r as [|d r IH]; simpl; [reflexivity|]. f_equal. exact IH.
    + assert (m <= String.length r) as Hle by lia.
      destruct (IH Hle) as [pre [Hpre Hlen]].
      exists (String c pre).
      cbn [String.length].
      replace (S (String.length r) - m) with (S (String.length r - m)) by lia.
      cbn [substring]. split; [simpl; f_equal; exact Hpre | exact Hlen].
Qed.

Lemma endswith_true (s p : string) :
  endswith s p = true -> exists pre, s = (pre ++ p)%string.
Proof.
  unfold endswith. intros H. apply andb_true_iff in H as [Hle Heq].
  apply Nat.leb_le in Hle. apply String.eqb_eq in Heq.
  destruct (substring_suffix s (String.length p) Hle) as [pre [Hpre _]].
  exists pre. rewrite Heq in Hpre. exact Hpre.
Qed.

Lemma append_inj_suffix (a b c d : string) :
  (a ++ b)%string = (c ++ d)%string -> String.length b = String.length d ->
  b = d.
Proof.
  revert c. induction a as [|x a IH]; intros c H Hlen.
  - destruct c as [|y c]; [exact H|].
    simpl in H. apply (f_equal String.length) in H.
    simpl in H. rewrite append_length in H. lia.
  - destruct c as [|y c].
    + simpl in H. apply (f_equal String.length) in H.
      simpl in H. rewrite append_length in H. lia.
    + simpl in H. injection H as _ H. exact (IH c H Hlen).
Qed.

(** A name that ends in a case variant of an extension ends in neither
    extension. *)
Lemma case_variant_not_suffix (stem v : string) :
  case_variant v ".csv" \/ case_variant v ".xlsx" ->
  endswith (stem ++ v) ".csv" = false /\ endswith (stem ++ v) ".xlsx" = false.
Proof.
  intros Hv. split.
  - destruct (endswith (stem ++ v) ".csv") eqn:E; [exfalso | reflexivity].
    apply endswith_true in E as [pre E].
    destruct Hv as [[Hl Hne]|[Hl Hne]];
      pose proof (f_equal String.length Hl) as Hlen;
      rewrite length_lower in Hlen; simpl in Hlen.
    + apply Hne. apply (append_inj_suffix _ _ _ _ E). exact Hlen.
    + destruct v as [|x v']; [discriminate|].
      change (String x v') with (String x "" ++ v')%string in E.
      rewrite <- append_assoc in E.
      apply append_inj_suffix in E; [|simpl in *; lia].
      subst v'. simpl in Hl. discriminate Hl.
  - destruct (endswith (stem ++ v) ".xlsx") eqn:E; [exfalso | reflexivity].
    apply endswith_true in E as [pre E].
    destruct Hv as [[Hl Hne]|[Hl Hne]];
      pose proof (f_equal String.length Hl) as Hlen;
      rewrite length_lower in Hlen; simpl in Hlen.
    + change ".xlsx" with ("." ++ "xlsx")%string in E.
      rewrite <- append_assoc in E.
      apply append_inj_suffix in E; [|simpl in *; lia].
      subst v. simpl in Hl. discriminate Hl.
    + apply Hne. apply (append_inj_suffix _ _ _ _ E). exact Hlen.
Qed.

Lemma truthy_append_r (a b : string) : truthy b = true -> truthy (a ++ b) = true.
Proof. destruct a; simpl; auto. Qed.

Section OrchestratorFacts.

Context {World Figure : Type}.
Variable px : DataFrame -> PxCall -> M World Figure.
Variable write_png_b64 : Figure -> M World string.
Variable read_csv read_excel : FileStorage -> M World DataFrame.
Variable describe_to_string : DataFrame -> M World string.
Variable groq_chat : string -> M World string.
Variable console_print : list string -> M World unit.

(** The run of [analyze] once the table is loaded and the reply parsed
    to at least one insight. *)
Lemma analyze_with_insights (f : FileStorage) (name : string)
      (df : DataFrame) (summary reply : string)
      (first : Insight) (rest : list Insight)
      (chart error : option string) (w w1 w2 w3 w4 w5 : World) :
  filename f = Some name -> truthy name = true ->
  (endswith name ".csv" = true /\ read_csv f w = (inr df, w1))
  \/ (endswith name ".csv" = false /\ endswith name ".xlsx" = true
      /\ read_excel f w = (inr df, w1)) ->
  describe_to_string df w1 = (inr summary, w2) ->
  query_llama3 groq_chat (build_prompt summary) w2 = (inr reply, w3) ->
  console_print [RAW_RESPONSE_LABEL; reply] w3 = (inr tt, w4) ->
  parse_detailed_insights reply = first :: rest ->
  plot_chart px write_png_b64 df first w4 = (inr (Pair chart error), w5) ->
  analyze px write_png_b64 read_csv read_excel describe_to_string
          groq_chat console_print (Some f) w
  = (inr (AnalysisBody (first :: rest) chart error, 200), w5).
Proof.
  intros Hname Htruthy Hload Hsum Hreply Hprint Hparse Hplot.
  unfold analyze, file_truthy. rewrite Hname, Htruthy. cbn [negb].
  unfold try_except, bind at 1. unfold ret at 1.
  destruct Hload as [[Hcsv Hload]|[Hcsv [Hxlsx Hload]]].
  - rewrite Hcsv. unfold bind.
    rewrite Hload, Hsum, Hreply, Hprint, Hparse, Hplot. reflexivity.
  - rewrite Hcsv, Hxlsx. unfold bind.
    rewrite Hload, Hsum, Hreply, Hprint, Hparse, Hplot. reflexivity.
Qed.

Lemma analyze_unsupported (f : FileStorage) (name : string) (w : World) :
  filename f = Some name -> truthy name = true ->
  endswith name ".csv" = false -> endswith name ".xlsx" = false ->
  analyze px write_png_b64 read_csv read_excel describe_to_string
          groq_chat console_print (Some f) w
  = (inr (ErrorBody "Unsupported file type", 400), w).
Proof.
  intros Hname Htruthy Hcsv Hxlsx.
  unfold analyze, file_truthy. rewrite Hname, Htruthy. cbn [negb].
  unfold try_except, bind, ret. rewrite Hcsv, Hxlsx. reflexivity.
Qed.

End OrchestratorFacts.



(** The run of the witness, in full: the insights, no chart, the message
    of the exception and the status 200. *)
Example failed_chart_run :
  analyze failing_px log_write load_sales load_sales describe_sales groq_sales
          console_ok
          (Some (mkFile (Some "sales.csv") "Region,Sales,Units")) []
  = (inr (AnalysisBody
            [mkInsight (Some "Revenue Growth") (Some "Sales up 20%")
                       (Some "bar") (Some ["Region"; "Sales"])
                       (Some "Expand top regions")]
            None (Some "Image export requires the kaleido package"), 200),
     [px_bar (GroupMean "Region" "Sales") "Region" "Sales" None
             "Region vs Sales"]).
Proof. vm_compute. reflexivity. Qed.

(** C10: the extension test is a suffix match that tells the cases
    apart: a file whose name ends in ".csv" or ".xlsx" with a letter in
    upper case gets the 400 "Unsupported file type" answer, and nothing
    is loaded. *)
Theorem uppercase_extension_unsupported :
  forall (World Figure : Type)
         (px : DataFrame -> PxCall -> M World Figure)
         (write_png_b64 : Figure -> M World string)
         (read_csv read_excel : FileStorage -> M World DataFrame)
         (describe_to_string : DataFrame -> M World string)
         (groq_chat : string -> M World string)
         (console_print : list string -> M World unit)
         (f : FileStorage) (stem v : string) (w : World),
    filename f = Some (stem ++ v)%string ->
    case_variant v ".csv" \/ case_variant v ".xlsx" ->
    analyze px write_png_b64 read_csv read_excel describe_to_string
            groq_chat console_print
            (Some f) w
    = (inr (ErrorBody "Unsupported file type", 400), w).
Proof.
  intros World Figure px write read_csv read_excel describe groq console
         f stem v w
         Hname Hv.
  destruct (case_variant_not_suffix stem v Hv) as [Hcsv Hxlsx].
  apply (analyze_unsupported px write read_csv read_excel describe groq console
           f (stem ++ v)%string w Hname); [|exact Hcsv|exact Hxlsx].
  apply truthy_append_r.
  destruct Hv as [[Hl _]|[Hl _]]; destruct v; [discriminate|reflexivity|discriminate|reflexivity].
Qed.

Lemma uppercase_extension_unsupported_witness :
  analyze log_px log_write load_sales load_sales describe_sales groq_sales
          console_ok
          (Some (mkFile (Some "sales.CSV") "Region,Sales,Units")) []
  = (inr (ErrorBody "Unsupported file type", 400), [])
  /\ analyze log_px log_write load_sales load_sales describe_sales groq_sales
          console_ok
          (Some (mkFile (Some "sales.Xlsx") "PK")) []
  = (inr (ErrorBody "Unsupported file type", 400), []).
Proof.
  split.
  - apply (uppercase_extension_unsupported Log unit log_px log_write load_sales
             load_sales describe_sales groq_sales console_ok
             (mkFile (Some "sales.CSV") "Region,Sales,Units")
             "sales" ".CSV" []).
    + reflexivity.
    + left. split; [reflexivity | discriminate].
  - apply (uppercase_extension_unsupported Log unit log_px log_write load_sales
             load_sales describe_sales groq_sales console_ok
             (mkFile (Some "sales.Xlsx") "PK")
             "sales" ".Xlsx" []).
    + reflexivity.
    + right. split; [reflexivity | discriminate].
Defined.

(** ** The parser: lines that are passed over, fields, titles *)

Lemma parse_line_by_kind (insights : list Insight) (current : Insight)
      (raw : string) :
  parse_line (insights, current) raw
  = match line_kind raw with
    | RecordLine =>
        (if dict_truthy current then insights ++ [current] else insights,
         title_dict (record_title raw))
    | ExplanationLine => (insights, set_explanation current (field_value raw))
    | ChartLine => (insights, set_chart current (field_value raw))
    | ColumnsLine =>
        (insights,
         set_columns current (clean_columns (split "," (field_value raw))))
    | TipLine => (insights, set_tip current (field_value raw))
    | OtherLine => (insights, current)
    end.
Proof.
  unfold parse_line, line_kind, record_title, field_value.
  destruct (starts_record (strip raw)); [reflexivity|].
  destruct (startswith (lower (strip raw)) "explanation:"); [reflexivity|].
  destruct (startswith (lower (strip raw)) "chart:"); [reflexivity|].
  destruct (startswith (lower (strip raw)) "columns:"); [reflexivity|].
  destruct (startswith (lower (strip raw)) "tip:"); reflexivity.
Qed.

Lemma parse_line_other (st : ParserState) (raw : string) :
  line_kind raw = OtherLine -> parse_line st raw = st.
Proof.
  destruct st as [insights current]. intros H.
  rewrite parse_line_by_kind, H. reflexivity.
Qed.

(** The parser on a text given by its lines. *)
Lemma parse_joined_lines (lines : list string) :
  Forall (fun l => contains NL l = false) lines ->
  parse_detailed_insights (join (String NL "") lines)
  = finish (parse_lines lines ([], empty_dict)).
Proof.
  intros H. rewrite parse_detailed_insights_lines.
  destruct lines as [|x m]; [reflexivity|].
  rewrite split_join_lines; [reflexivity | discriminate | exact H].
Qed.

Lemma no_nl_without (before after : list string) (x : string) :
  Forall (fun l => contains NL l = false) (before ++ x :: after) ->
  Forall (fun l => contains NL l = false) (before ++ after).
Proof.
  intros H. apply Forall_app in H as [Hb Ha]. inversion Ha; subst.
  apply Forall_app. split; assumption.
Qed.

(** A line that is blank, or that neither starts a record nor has one
    of the four field heads, can be put anywhere in a reply, also first
    or last, without any change to the insights. *)
Theorem other_line_is_passed_over :
  forall (before after : list string) (x : string),
    Forall (fun l => contains NL l = false) (before ++ x :: after) ->
    line_kind x = OtherLine ->
    parse_detailed_insights (join (String NL "") (before ++ x :: after))
    = parse_detailed_insights (join (String NL "") (before ++ after)).
Proof.
  intros before after x Hnl Hx.
  pose proof (no_nl_without _ _ _ Hnl) as Hnl'.
  rewrite !parse_joined_lines by assumption.
  rewrite !parse_lines_app. f_equal.
  unfold parse_lines at 1. cbn [fold_left].
  rewrite (parse_line_other _ x Hx). reflexivity.
Qed.

Lemma other_line_is_passed_over_witness :
  parse_detailed_insights
    (join (String NL "")
          (["Title: Revenue Growth"]
             ++ "Here is why it matters." :: ["Tip: Expand"]))
  = parse_detailed_insights
      (join (String NL "") (["Title: Revenue Growth"] ++ ["Tip: Expand"])).
Proof.
  apply (other_line_is_passed_over ["Title: Revenue Growth"] ["Tip: Expand"]
           "Here is why it matters.").
  - repeat constructor.
  - reflexivity.
Defined.

Lemma parse_line_overwrites (st : ParserState) (l1 l2 : string) :
  line_kind l1 = line_kind l2 -> line_kind l1 <> RecordLine ->
  parse_line (parse_line st l1) l2 = parse_line st l2.
Proof.
  destruct st as [insights current]. intros Hk Hr.
  rewrite (parse_line_by_kind insights current l1).
  rewrite (parse_line_by_kind insights current l2).
  rewrite <- Hk.
  destruct (line_kind l1) eqn:E1; try congruence;
    rewrite parse_line_by_kind, <- Hk; reflexivity.
Qed.

Lemma parse_line_commutes (st : ParserState) (l1 l2 : string) :
  line_kind l1 <> RecordLine -> line_kind l2 <> RecordLine ->
  line_kind l1 <> line_kind l2 ->
  parse_line (parse_line st l1) l2 = parse_line (parse_line st l2) l1.
Proof.
  destruct st as [insights current]. intros H1 H2 Hne.
  rewrite (parse_line_by_kind insights current l1).
  rewrite (parse_line_by_kind insights current l2).
  destruct (line_kind l1) eqn:E1; try congruence;
    destruct (line_kind l2) eqn:E2; try congruence;
    rewrite !parse_line_by_kind, ?E1, ?E2; reflexivity.
Qed.

(** Of two field lines of the same kind that follow each other in a
    reply, the second wins: the reply without the first line gives the
    same insights. *)
Theorem later_field_line_overwrites :
  forall (before after : list string) (l1 l2 : string),
    Forall (fun l => contains NL l = false) (before ++ l1 :: l2 :: after) ->
    line_kind l1 = line_kind l2 ->
    line_kind l1 <> RecordLine ->
    parse_detailed_insights
      (join (String NL "") (before ++ l1 :: l2 :: after))
    = parse_detailed_insights (join (String NL "") (before ++ l2 :: after)).
Proof.
  intros before after l1 l2 Hnl Hk Hr.
  rewrite !parse_joined_lines by (assumption || exact (no_nl_without _ _ _ Hnl)).
  rewrite !parse_lines_app. f_equal.
  unfold parse_lines at 1 3. cbn [fold_left].
  rewrite (parse_line_overwrites _ l1 l2 Hk Hr). reflexivity.
Qed.

Lemma later_field_line_overwrites_witness :
  parse_detailed_insights
    (join (String NL "")
          (["Title: Revenue Growth"] ++ "Tip: Expand" :: "tip: Hold" :: []))
  = parse_detailed_insights
      (join (String NL "") (["Title: Revenue Growth"] ++ "tip: Hold" :: [])).
Proof.
  apply (later_field_line_overwrites ["Title: Revenue Growth"] []
           "Tip: Expand" "tip: Hold").
  - repeat constructor.
  - reflexivity.
  - discriminate.
Defined.

(** The field lines of a record can come in any order: two lines that
    follow each other, do not start a record and are not of the same
    kind can change places without any change to the insights. *)
Theorem field_lines_commute :
  forall (before after : list string) (l1 l2 : string),
    Forall (fun l => contains NL l = false) (before ++ l1 :: l2 :: after) ->
    line_kind l1 <> RecordLine -> line_kind l2 <> RecordLine ->
    line_kind l1 <> line_kind l2 ->
    parse_detailed_insights
      (join (String NL "") (before ++ l1 :: l2 :: after))
    = parse_detailed_insights
        (join (String NL "") (before ++ l2 :: l1 :: after)).
Proof.
  intros before after l1 l2 Hnl H1 H2 Hne.
  assert (Forall (fun l => contains NL l = false)
                 (before ++ l2 :: l1 :: after)) as Hnl'.
  { apply Forall_app in Hnl as [Hb Ha]. inversion Ha as [|? ? Hl1 Ha']; subst.
    inversion Ha' as [|? ? Hl2 Ha'']; subst.
    apply Forall_app. split; [exact Hb|]. repeat constructor; assumption. }
  rewrite !parse_joined_lines by assumption.
  rewrite !parse_lines_app. f_equal.
  unfold parse_lines at 1 3. cbn [fold_left].
  rewrite (parse_line_commutes _ l1 l2 H1 H2 Hne). reflexivity.
Qed.

Lemma field_lines_commute_witness :
  parse_detailed_insights
    (join (String NL "")
          (["Title: Revenue Growth"] ++ "Tip: Expand" :: "Chart: bar" :: []))
  = parse_detailed_insights
      (join (String NL "")
            (["Title: Revenue Growth"] ++ "Chart: bar" :: "Tip: Expand" :: [])).
Proof.
  apply (field_lines_commute ["Title: Revenue Growth"] []
           "Tip: Expand" "Chart: bar").
  - repeat constructor.
  - discriminate.
  - discriminate.
  - discriminate.
Defined.

(** Every text that the parser stores has no white space at its ends
    and no line feed; a title has no two stars in a row; a column name
    is not empty and has no comma. *)
Theorem stored_text_is_clean :
  forall (text : string) (i : Insight),
    In i (parse_detailed_insights text) -> insight_ok i.
Proof.
  intros text i Hin. destruct (parse_output_ok text) as [H _].
  rewrite Forall_forall in H. exact (H i Hin).
Qed.

Lemma stored_text_is_clean_witness :
  insight_ok (mkInsight (Some "Revenue Growth") (Some "Sales up 20%")
                        (Some "bar") (Some ["Region"; "Sales"])
                        (Some "Expand top regions")).
Proof.
  apply (stored_text_is_clean model_reply). vm_compute. left. reflexivity.
Defined.

(** No insight is an empty dict, and every insight but the first has
    the key "title". *)
Theorem only_first_insight_may_lack_title :
  forall text : string,
    (forall i, In i (parse_detailed_insights text) -> dict_truthy i = true)
    /\ (forall first rest j,
           parse_detailed_insights text = first :: rest ->
           In j rest -> exists t, title j = Some t).
Proof.
  intros text. destruct (parse_output_ok text) as [_ [Htru Htit]]. split.
  - intros i Hi. rewrite Forall_forall in Htru. exact (Htru i Hi).
  - intros first rest j E Hj. rewrite E in Htit. simpl in Htit.
    rewrite Forall_forall in Htit. specialize (Htit j Hj).
    unfold titled in Htit. destruct (title j) as [t|]; [eauto | discriminate].
Qed.

Lemma only_first_insight_may_lack_title_witness :
  dict_truthy (mkInsight None (Some "Sales up 20%") None None None) = true
  /\ exists t, title (title_dict "Revenue Growth") = Some t.
Proof.
  pose proof (only_first_insight_may_lack_title
                (String.append "Explanation: Sales up 20%"
                               (String NL "Title: Revenue Growth")))
    as [Hall Hrest].
  split.
  - apply Hall. vm_compute. left. reflexivity.
  - apply (Hrest (mkInsight None (Some "Sales up 20%") None None None)
                 [title_dict "Revenue Growth"]).
    + vm_compute. reflexivity.
    + left. reflexivity.
Defined.

(** When the first line of the stripped reply starts a record and every
    line that starts a record gives a title that is not empty, every
    insight has a title that is not empty. *)
Theorem titled_records_give_titled_insights :
  forall (text first : string) (rest : list string),
    split NL (strip text) = first :: rest ->
    line_kind first = RecordLine ->
    (forall l, In l (first :: rest) -> line_kind l = RecordLine ->
               truthy (record_title l) = true) ->
    Forall (fun i => title_truthy i = true) (parse_detailed_insights text).
Proof.
  intros text first rest Hsplit Hfirst Htitles.
  unfold parse_detailed_insights. rewrite Hsplit. cbn [fold_left].
  rewrite parse_line_by_kind, Hfirst. cbn [dict_truthy empty_dict title
    explanation chart columns tip is_some orb].
  assert (forall ls st,
             (forall l, In l ls -> line_kind l = RecordLine ->
                        truthy (record_title l) = true) ->
             Forall (fun i => title_truthy i = true) (fst st) ->
             title_truthy (snd st) = true ->
             Forall (fun i => title_truthy i = true)
                    (finish (fold_left parse_line ls st))) as Hinv.
  { induction ls as [|l ls IH]; intros [ins cur] Hls Hins Hcur.
    - cbn [fold_left finish fst snd] in *. rewrite Hcur, andb_true_r.
      destruct (dict_truthy cur); [|exact Hins].
      apply Forall_app. split; [exact Hins | constructor; [exact Hcur | constructor]].
    - cbn [fold_left]. apply IH.
      + intros l' Hl'. apply Hls. right. exact Hl'.
      + rewrite parse_line_by_kind. cbn [fst snd] in *.
        destruct (line_kind l); cbn [fst]; try exact Hins.
        destruct (dict_truthy cur); [|exact Hins].
        apply Forall_app. split; [exact Hins | constructor; [exact Hcur | constructor]].
      + rewrite parse_line_by_kind. cbn [fst snd] in *.
        destruct (line_kind l) eqn:E; cbn [snd]; try exact Hcur.
        unfold title_truthy. cbn. apply Hls; [left; reflexivity | exact E]. }
  apply Hinv.
  - intros l Hl. apply Htitles. right. exact Hl.
  - constructor.
  - unfold title_truthy. cbn. apply Htitles; [left; reflexivity | exact Hfirst].
Qed.

Lemma titled_records_give_titled_insights_witness :
  Forall (fun i => title_truthy i = true)
         (parse_detailed_insights model_reply).
Proof.
  apply (titled_records_give_titled_insights model_reply
           "Title: Revenue Growth"
           ["Explanation: Sales up 20%"; "Chart: bar";
            "Columns: Region, Sales"; "Tip: Expand top regions"]).
  - reflexivity.
  - reflexivity.
  - intros l Hl Hk. simpl in Hl.
    repeat (destruct Hl as [<-|Hl]; [first [reflexivity | discriminate Hk]|]).
    contradiction.
Defined.

(** A reply in which no line starts a record gives no insight, whatever
    field lines it has. *)
Theorem reply_without_record_line_is_empty :
  forall text : string,
    Forall (fun l => line_kind l <> RecordLine) (split NL (strip text)) ->
    parse_detailed_insights text = [].
Proof.
  intros text H. apply no_record_line_no_insight.
  eapply Forall_impl; [|exact H]. intros l Hl. unfold line_kind in Hl.
  destruct (starts_record (strip l)); [congruence | reflexivity].
Qed.

Lemma reply_without_record_line_is_empty_witness :
  parse_detailed_insights "Sorry, I cannot help with that.
Explanation: the summary is empty" = [].
Proof.
  apply reply_without_record_line_is_empty.
  replace (split NL (strip "Sorry, I cannot help with that.
Explanation: the summary is empty"))
    with ["Sorry, I cannot help with that.";
          "Explanation: the summary is empty"]
    by (vm_compute; reflexivity).
  constructor; [vm_compute; discriminate|].
  constructor; [vm_compute; discriminate | constructor].
Defined.

(** ** The chart selector: the other branches *)

(** Two categorical columns: the rows are counted per pair of values and
    the bar chart has the first column on its axis, the counts as
    heights and the second column as colour. *)
Theorem two_categorical_grouped_bar :
  forall (World Figure : Type)
         (px : DataFrame -> PxCall -> M World Figure)
         (write_png_b64 : Figure -> M World string)
         (df : DataFrame) (insight : Insight)
         (c1 c2 : string) (rest : list string) (w : World),
    get_columns insight = c1 :: c2 :: rest ->
    any_missing df (c1 :: c2 :: rest) = false ->
    c2 <> "" ->
    column_dtype df c1 = Some object ->
    column_dtype df c2 = Some object ->
    plot_chart px write_png_b64 df insight w
    = render_call px write_png_b64 df
        (px_bar (GroupSize c1 c2) c1 "count" (Some c2)
                (c1 ++ " vs " ++ c2)%string) w.
Proof.
  intros World Figure px write df insight c1 c2 rest w Hcols Hok Hne H1 H2.
  destruct (plot_chart_selected px write df insight c1 (c2 :: rest) w Hcols Hok)
    as [t1 [Ht1 ->]].
  rewrite H1 in Ht1. injection Ht1 as <-.
  unfold second_column. rewrite H2.
  destruct c2 as [|a c2']; [congruence | reflexivity].
Qed.

Lemma two_categorical_grouped_bar_witness :
  plot_chart log_px log_write names_table
             (insight_with_columns ["Region"; "Product"]) []
  = render_call log_px log_write names_table
      (px_bar (GroupSize "Region" "Product") "Region" "count"
              (Some "Product") "Region vs Product") [].
Proof.
  apply (two_categorical_grouped_bar Log unit log_px log_write names_table
           (insight_with_columns ["Region"; "Product"])
           "Region" "Product" [] []);
    try reflexivity; discriminate.
Defined.

(** Two numeric columns: a scatter plot of the table itself, the first
    column against the second. *)
Theorem two_numeric_scatter :
  forall (World Figure : Type)
         (px : DataFrame -> PxCall -> M World Figure)
         (write_png_b64 : Figure -> M World string)
         (df : DataFrame) (insight : Insight)
         (c1 c2 : string) (rest : list string) (t1 t2 : Dtype) (w : World),
    get_columns insight = c1 :: c2 :: rest ->
    any_missing df (c1 :: c2 :: rest) = false ->
    c2 <> "" ->
    column_dtype df c1 = Some t1 -> t1 <> object ->
    column_dtype df c2 = Some t2 -> t2 <> object ->
    plot_chart px write_png_b64 df insight w
    = render_call px write_png_b64 df
        (px_scatter Whole c1 c2 (c1 ++ " vs " ++ c2)%string) w.
Proof.
  intros World Figure px write df insight c1 c2 rest t1 t2 w
         Hcols Hok Hne H1 N1 H2 N2.
  destruct (plot_chart_selected px write df insight c1 (c2 :: rest) w Hcols Hok)
    as [t1' [Ht1 ->]].
  rewrite H1 in Ht1. injection Ht1 as <-.
  unfold second_column. rewrite H2.
  destruct c2 as [|a c2']; [congruence|]. cbn [truthy select_chart].
  destruct t1; [congruence| | |]; destruct t2; try congruence; reflexivity.
Qed.

Lemma two_numeric_scatter_witness :
  plot_chart log_px log_write names_table
             (insight_with_columns ["Sales"; "Units"]) []
  = render_call log_px log_write names_table
      (px_scatter Whole "Sales" "Units" "Sales vs Units") [].
Proof.
  apply (two_numeric_scatter Log unit log_px log_write names_table
           (insight_with_columns ["Sales"; "Units"])
           "Sales" "Units" [] float64 int64 []);
    try reflexivity; discriminate.
Defined.

(** One column, or a second column whose name is empty: a categorical
    column gives the bar chart of the counts of its values, a numeric
    column its histogram. *)
Theorem single_column_chart :
  forall (World Figure : Type)
         (px : DataFrame -> PxCall -> M World Figure)
         (write_png_b64 : Figure -> M World string)
         (df : DataFrame) (insight : Insight)
         (c1 : string) (rest : list string) (t1 : Dtype) (w : World),
    get_columns insight = c1 :: rest ->
    any_missing df (c1 :: rest) = false ->
    rest = [] \/ (exists rest', rest = "" :: rest') ->
    column_dtype df c1 = Some t1 ->
    plot_chart px write_png_b64 df insight w
    = render_call px write_png_b64 df
        (if is_object t1
         then px_bar (ValueCounts c1) c1 "count" None
                     ("Distribution: " ++ c1)%string
         else px_histogram Whole c1 ("Histogram: " ++ c1)%string) w.
Proof.
  intros World Figure px write df insight c1 rest t1 w Hcols Hok Hone H1.
  destruct (plot_chart_selected px write df insight c1 rest w Hcols Hok)
    as [t1' [Ht1 ->]].
  rewrite H1 in Ht1. injection Ht1 as <-.
  destruct Hone as [->|[rest' ->]]; reflexivity.
Qed.

Lemma single_column_chart_witness :
  plot_chart log_px log_write names_table (insight_with_columns ["Sales"]) []
  = render_call log_px log_write names_table
      (px_histogram Whole "Sales" "Histogram: Sales") []
  /\ plot_chart log_px log_write names_table
                (insight_with_columns ["Region"]) []
     = render_call log_px log_write names_table
         (px_bar (ValueCounts "Region") "Region" "count" None
                 "Distribution: Region") [].
Proof.
  split.
  - apply (single_column_chart Log unit log_px log_write names_table
             (insight_with_columns ["Sales"]) "Sales" [] float64 []);
      try reflexivity. left. reflexivity.
  - apply (single_column_chart Log unit log_px log_write names_table
             (insight_with_columns ["Region"]) "Region" [] object []);
      try reflexivity. left. reflexivity.
Defined.

(** ** The orchestrator: the other answers *)

Section OrchestratorCases.

Context {World Figure : Type}.
Variable px : DataFrame -> PxCall -> M World Figure.
Variable write_png_b64 : Figure -> M World string.
Variable read_csv read_excel : FileStorage -> M World DataFrame.
Variable describe_to_string : DataFrame -> M World string.
Variable groq_chat : string -> M World string.
Variable console_print : list string -> M World unit.

(** [query_llama3] returns a reply, whatever the endpoint does. *)
Lemma query_llama3_returns (prompt : string) (w : World) :
  exists reply w',
    query_llama3 groq_chat prompt w = (inr reply, w')
    /\ match groq_chat prompt w with
       | (inr content, w1) => reply = content /\ w' = w1
       | (inl e, w1) => reply = (GROQ_ERROR_PREFIX ++ e)%string /\ w' = w1
       end.
Proof.
  unfold query_llama3, try_except, ret.
  destruct (groq_chat prompt w) as [[e|content] w1]; eauto.
Qed.

(** [analyze] on a file with a name, by the reader for the name. *)
Lemma analyze_no_reader (f : FileStorage) (name : string) (w : World) :
  filename f = Some name -> truthy name = true ->
  reader_for read_csv read_excel name = None ->
  analyze px write_png_b64 read_csv read_excel describe_to_string
          groq_chat console_print
          (Some f) w
  = (inr (ErrorBody "Unsupported file type", 400), w).
Proof.
  intros Hname Htruthy Hr. unfold reader_for in Hr.
  destruct (endswith name ".csv") eqn:E1; [discriminate|].
  destruct (endswith name ".xlsx") eqn:E2; [discriminate|].
  apply analyze_unsupported with (name := name); assumption.
Qed.

Lemma analyze_load_raises (f : FileStorage) (name : string)
      (read : FileStorage -> M World DataFrame) (e : string) (w w1 : World) :
  filename f = Some name -> truthy name = true ->
  reader_for read_csv read_excel name = Some read ->
  read f w = (inl e, w1) ->
  analyze px write_png_b64 read_csv read_excel describe_to_string
          groq_chat console_print
          (Some f) w
  = (inr (ErrorBody e, 500), w1).
Proof.
  intros Hname Htruthy Hr Hload. unfold reader_for in Hr.
  unfold analyze, file_truthy. rewrite Hname, Htruthy. cbn [negb].
  unfold try_except, bind at 1. unfold ret at 1.
  destruct (endswith name ".csv");
    [|destruct (endswith name ".xlsx"); [|discriminate]];
    injection Hr as <-; unfold bind; rewrite Hload; reflexivity.
Qed.

Lemma analyze_describe_raises (f : FileStorage) (name : string)
      (read : FileStorage -> M World DataFrame) (df : DataFrame)
      (e : string) (w w1 w2 : World) :
  filename f = Some name -> truthy name = true ->
  reader_for read_csv read_excel name = Some read ->
  read f w = (inr df, w1) ->
  describe_to_string df w1 = (inl e, w2) ->
  analyze px write_png_b64 read_csv read_excel describe_to_string
          groq_chat console_print
          (Some f) w
  = (inr (ErrorBody e, 500), w2).
Proof.
  intros Hname Htruthy Hr Hload Hsum. unfold reader_for in Hr.
  unfold analyze, file_truthy. rewrite Hname, Htruthy. cbn [negb].
  unfold try_except, bind at 1. unfold ret at 1.
  destruct (endswith name ".csv");
    [|destruct (endswith name ".xlsx"); [|discriminate]];
    injection Hr as <-; unfold bind; rewrite Hload, Hsum; reflexivity.
Qed.

Lemma analyze_print_raises (f : FileStorage) (name : string)
      (read : FileStorage -> M World DataFrame) (df : DataFrame)
      (summary reply e : string) (w w1 w2 w3 w4 : World) :
  filename f = Some name -> truthy name = true ->
  reader_for read_csv read_excel name = Some read ->
  read f w = (inr df, w1) ->
  describe_to_string df w1 = (inr summary, w2) ->
  query_llama3 groq_chat (build_prompt summary) w2 = (inr reply, w3) ->
  console_print [RAW_RESPONSE_LABEL; reply] w3 = (inl e, w4) ->
  analyze px write_png_b64 read_csv read_excel describe_to_string
          groq_chat console_print (Some f) w
  = (inr (ErrorBody e, 500), w4).
Proof.
  intros Hname Htruthy Hr Hload Hsum Hreply Hprint. unfold reader_for in Hr.
  unfold analyze, file_truthy. rewrite Hname, Htruthy. cbn [negb].
  unfold try_except, bind at 1. unfold ret at 1.
  destruct (endswith name ".csv");
    [|destruct (endswith name ".xlsx"); [|discriminate]];
    injection Hr as <-; unfold bind;
    rewrite Hload, Hsum, Hreply, Hprint; reflexivity.
Qed.

Lemma analyze_no_insight (f : FileStorage) (name : string)
      (read : FileStorage -> M World DataFrame) (df : DataFrame)
      (summary reply : string) (w w1 w2 w3 w4 : World) :
  filename f = Some name -> truthy name = true ->
  reader_for read_csv read_excel name = Some read ->
  read f w = (inr df, w1) ->
  describe_to_string df w1 = (inr summary, w2) ->
  query_llama3 groq_chat (build_prompt summary) w2 = (inr reply, w3) ->
  console_print [RAW_RESPONSE_LABEL; reply] w3 = (inr tt, w4) ->
  parse_detailed_insights reply = [] ->
  analyze px write_png_b64 read_csv read_excel describe_to_string
          groq_chat console_print (Some f) w
  = (inr (ErrorRawBody "No insights extracted" reply, 500), w4).
Proof.
  intros Hname Htruthy Hr Hload Hsum Hreply Hprint Hparse.
  unfold reader_for in Hr.
  unfold analyze, file_truthy. rewrite Hname, Htruthy. cbn [negb].
  unfold try_except, bind at 1. unfold ret at 1.
  destruct (endswith name ".csv");
    [|destruct (endswith name ".xlsx"); [|discriminate]];
    injection Hr as <-; unfold bind;
    rewrite Hload, Hsum, Hreply, Hprint, Hparse; reflexivity.
Qed.

Lemma analyze_charted (f : FileStorage) (name : string)
      (read : FileStorage -> M World DataFrame) (df : DataFrame)
      (summary reply : string) (first : Insight) (rest : list Insight)
      (chart error : option string) (w w1 w2 w3 w4 w5 : World) :
  filename f = Some name -> truthy name = true ->
  reader_for read_csv read_excel name = Some read ->
  read f w = (inr df, w1) ->
  describe_to_string df w1 = (inr summary, w2) ->
  query_llama3 groq_chat (build_prompt summary) w2 = (inr reply, w3) ->
  console_print [RAW_RESPONSE_LABEL; reply] w3 = (inr tt, w4) ->
  parse_detailed_insights reply = first :: rest ->
  plot_chart px write_png_b64 df first w4 = (inr (Pair chart error), w5) ->
  analyze px write_png_b64 read_csv read_excel describe_to_string
          groq_chat console_print (Some f) w
  = (inr (AnalysisBody (first :: rest) chart error, 200), w5).
Proof.
  intros Hname Htruthy Hr Hload Hsum Hreply Hprint Hparse Hplot.
  unfold reader_for in Hr.
  apply analyze_with_insights
    with (name := name) (df := df) (summary := summary) (reply := reply)
         (w1 := w1) (w2 := w2) (w3 := w3) (w4 := w4); try assumption.
  destruct (endswith name ".csv");
    [|destruct (endswith name ".xlsx"); [|discriminate]];
    injection Hr as <-; [left | right]; auto.
Qed.

Lemma analyze_outcome (file : option FileStorage) (w : World) :
  exists resp w',
    analyze px write_png_b64 read_csv read_excel describe_to_string
            groq_chat console_print file w = (inr resp, w')
    /\ Outcome px write_png_b64 read_csv read_excel describe_to_string
               groq_chat console_print file w resp w'.
Proof.
  destruct file as [f|].
  2:{ do 2 eexists. split; [reflexivity|]. apply NoFile. left. reflexivity. }
  destruct (file_truthy f) eqn:Hf.
  2:{ do 2 eexists. split; [unfold analyze; rewrite Hf; reflexivity|].
      apply NoFile. right. eauto. }
  unfold file_truthy in Hf.
  destruct (filename f) as [name|] eqn:Hname; [|discriminate].
  destruct (reader_for read_csv read_excel name) as [read|] eqn:Hr.
  2:{ do 2 eexists. split; [eapply analyze_no_reader; eassumption|].
      eapply Unsupported; eauto. }
  destruct (read f w) as [[e|df] w1] eqn:Hload.
  { do 2 eexists. split; [eapply analyze_load_raises; eassumption|].
    eapply LoadFailed; eauto. }
  destruct (describe_to_string df w1) as [[e|summary] w2] eqn:Hsum.
  { do 2 eexists. split; [eapply analyze_describe_raises; eassumption|].
    eapply DescribeFailed; eauto. }
  destruct (query_llama3_returns (build_prompt summary) w2)
    as [reply [w3 [Hreply _]]].
  destruct (console_print [RAW_RESPONSE_LABEL; reply] w3)
    as [[e|[]] w4] eqn:Hprint.
  { do 2 eexists. split; [eapply analyze_print_raises; eassumption|].
    eapply PrintFailed; eauto. }
  destruct (parse_detailed_insights reply) as [|first rest] eqn:Hparse.
  { do 2 eexists. split; [eapply analyze_no_insight; eassumption|].
    eapply NoInsight; eauto. }
  destruct (render_result_is_pair px write_png_b64 df first w4)
    as [chart [error [w5 [Hplot Hshape]]]].
  do 2 eexists. split; [eapply analyze_charted; eassumption|].
  eapply Charted; eauto.
Qed.

End OrchestratorCases.


(** An answer of status 200 has at least one insight, and either an
    image and no error or no image and an error. *)
Theorem ok_answer_has_insights :
  forall (World Figure : Type)
         (px : DataFrame -> PxCall -> M World Figure)
         (write_png_b64 : Figure -> M World string)
         (read_csv read_excel : FileStorage -> M World DataFrame)
         (describe_to_string : DataFrame -> M World string)
         (groq_chat : string -> M World string)
         (console_print : list string -> M World unit)
         (file : option FileStorage) (body : Body) (w w' : World),
    analyze px write_png_b64 read_csv read_excel describe_to_string
            groq_chat console_print file w = (inr (body, 200), w') ->
    exists first rest chart error,
      body = AnalysisBody (first :: rest) chart error
      /\ ((exists img, chart = Some img /\ error = None)
          \/ (exists msg, chart = None /\ error = Some msg)).
Proof.
  intros World Figure px write read_csv read_excel describe groq console
         file body
         w w' Hrun.
  destruct (analyze_outcome px write read_csv read_excel describe groq console
              file w)
    as [resp [w'' [Hrun' Hout]]].
  rewrite Hrun in Hrun'. injection Hrun' as <- <-.
  inversion Hout; subst; try discriminate.
  do 4 eexists. split; [reflexivity | assumption].
Qed.

Lemma ok_answer_has_insights_witness :
  exists first rest chart error,
    AnalysisBody
      [mkInsight (Some "Revenue Growth") (Some "Sales up 20%") (Some "bar")
                 (Some ["Region"; "Sales"]) (Some "Expand top regions")]
      (Some "iVBORw0KGgo=") None
    = AnalysisBody (first :: rest) chart error
    /\ ((exists img, chart = Some img /\ error = None)
        \/ (exists msg, chart = None /\ error = Some msg)).
Proof.
  apply (ok_answer_has_insights Log unit log_px log_write load_sales
           load_sales describe_sales groq_sales console_ok
           (Some (mkFile (Some "sales.xlsx") "PK")) _ []
           [px_bar (GroupMean "Region" "Sales") "Region" "Sales" None
                   "Region vs Sales"]).
  vm_compute. reflexivity.
Defined.

(** An answer of status 400 is one of the two client errors, and is
    given before anything is read, summarised, asked or drawn. *)
Theorem client_error_touches_nothing :
  forall (World Figure : Type)
         (px : DataFrame -> PxCall -> M World Figure)
         (write_png_b64 : Figure -> M World string)
         (read_csv read_excel : FileStorage -> M World DataFrame)
         (describe_to_string : DataFrame -> M World string)
         (groq_chat : string -> M World string)
         (console_print : list string -> M World unit)
         (file : option FileStorage) (body : Body) (w w' : World),
    analyze px write_png_b64 read_csv read_excel describe_to_string
            groq_chat console_print file w = (inr (body, 400), w') ->
    w' = w
    /\ (body = ErrorBody "No file uploaded"
        \/ body = ErrorBody "Unsupported file type").
Proof.
  intros World Figure px write read_csv read_excel describe groq console
         file body
         w w' Hrun.
  destruct (analyze_outcome px write read_csv read_excel describe groq console
              file w)
    as [resp [w'' [Hrun' Hout]]].
  rewrite Hrun in Hrun'. injection Hrun' as <- <-.
  inversion Hout; subst; try discriminate; auto.
Qed.

Lemma client_error_touches_nothing_witness :
  ([] : Log) = []
  /\ (ErrorBody "No file uploaded" = ErrorBody "No file uploaded"
      \/ ErrorBody "No file uploaded" = ErrorBody "Unsupported file type").
Proof.
  apply (client_error_touches_nothing Log unit log_px log_write load_sales
           load_sales describe_sales groq_sales console_ok
           (Some (mkFile (Some "") "Region,Sales")) _ [] []).
  reflexivity.
Defined.



(** When the reply is printed and has no insight, the answer is the 500
    that carries the reply as it came, and no chart is drawn. *)
Theorem no_insight_is_500_with_raw :
  forall (World Figure : Type)
         (px : DataFrame -> PxCall -> M World Figure)
         (write_png_b64 : Figure -> M World string)
         (read_csv read_excel : FileStorage -> M World DataFrame)
         (describe_to_string : DataFrame -> M World string)
         (groq_chat : string -> M World string)
         (console_print : list string -> M World unit)
         (f : FileStorage) (name : string)
         (read : FileStorage -> M World DataFrame) (df : DataFrame)
         (summary reply : string) (w w1 w2 w3 w4 : World),
    filename f = Some name -> truthy name = true ->
    reader_for read_csv read_excel name = Some read ->
    read f w = (inr df, w1) ->
    describe_to_string df w1 = (inr summary, w2) ->
    query_llama3 groq_chat (build_prompt summary) w2 = (inr reply, w3) ->
    console_print [RAW_RESPONSE_LABEL; reply] w3 = (inr tt, w4) ->
    parse_detailed_insights reply = [] ->
    analyze px write_png_b64 read_csv read_excel describe_to_string
            groq_chat console_print (Some f) w
    = (inr (ErrorRawBody "No insights extracted" reply, 500), w4).
Proof.
  intros. eapply analyze_no_insight; eassumption.
Qed.

Lemma no_insight_is_500_with_raw_witness :
  analyze log_px log_write load_sales load_sales describe_sales groq_chatty
          console_ok
          (Some (mkFile (Some "sales.csv") "Region,Sales,Units")) []
  = (inr (ErrorRawBody "No insights extracted"
                       "I could not find anything of interest.", 500), []).
Proof.
  apply (no_insight_is_500_with_raw Log unit log_px log_write load_sales
           load_sales describe_sales groq_chatty console_ok
           (mkFile (Some "sales.csv") "Region,Sales,Units") "sales.csv"
           load_sales sales_table "        Region  Sales  Units"
           "I could not find anything of interest." [] [] [] [] []);
    reflexivity.
Defined.



Lemma rstrip_keeps_head (c : ascii) (r : string) :
  isspace c = false -> exists r', rstrip (String c r) = String c r'.
Proof.
  intros Hc. cbn [rstrip]. destruct (rstrip r); rewrite ?Hc; eauto.
Qed.

(** The reply that stands for a failed call, when the message of the
    exception has one line, has no insight. *)
Lemma error_reply_has_no_insight (e : string) :
  contains NL e = false ->
  parse_detailed_insights (GROQ_ERROR_PREFIX ++ e) = [].
Proof.
  intros He. apply no_record_line_no_insight.
  assert (contains NL (strip (GROQ_ERROR_PREFIX ++ e)) = false) as Hnl.
  { apply contains_strip. rewrite contains_app, He. reflexivity. }
  rewrite (split_no_sep NL _ Hnl). constructor; [|constructor].
  rewrite (stripped_strip _ (strip_stripped _)).
  unfold strip.
  change (lstrip (GROQ_ERROR_PREFIX ++ e)) with (GROQ_ERROR_PREFIX ++ e)%string.
  destruct (rstrip_keeps_head "226" (String "157" (String "140"
              (" Groq API Error: " ++ e))) eq_refl) as [r' Hr].
  change (GROQ_ERROR_PREFIX ++ e)%string
    with (String "226" (String "157" (String "140"
            (" Groq API Error: " ++ e)))).
  rewrite Hr. reflexivity.
Qed.

(** When the call of the model endpoint raises with a message of one
    line, [analyze] does not fail on it: the message, behind the fixed
    head, is the reply; once it is printed it is parsed, gives no
    insight, and comes back as the raw text of the 500 "No insights
    extracted". *)
Theorem endpoint_failure_is_no_insight :
  forall (World Figure : Type)
         (px : DataFrame -> PxCall -> M World Figure)
         (write_png_b64 : Figure -> M World string)
         (read_csv read_excel : FileStorage -> M World DataFrame)
         (describe_to_string : DataFrame -> M World string)
         (groq_chat : string -> M World string)
         (console_print : list string -> M World unit)
         (f : FileStorage) (name : string)
         (read : FileStorage -> M World DataFrame) (df : DataFrame)
         (summary e : string) (w w1 w2 w3 w4 : World),
    filename f = Some name -> truthy name = true ->
    reader_for read_csv read_excel name = Some read ->
    read f w = (inr df, w1) ->
    describe_to_string df w1 = (inr summary, w2) ->
    groq_chat (build_prompt summary) w2 = (inl e, w3) ->
    contains NL e = false ->
    console_print [RAW_RESPONSE_LABEL; (GROQ_ERROR_PREFIX ++ e)%string] w3
    = (inr tt, w4) ->
    analyze px write_png_b64 read_csv read_excel describe_to_string
            groq_chat console_print (Some f) w
    = (inr (ErrorRawBody "No insights extracted"
                         (GROQ_ERROR_PREFIX ++ e), 500), w4).
Proof.
  intros World Figure px write read_csv read_excel describe groq console
         f name read df summary e w w1 w2 w3 w4
         Hname Htruthy Hr Hload Hsum Hgroq He Hprint.
  eapply analyze_no_insight; try eassumption.
  - unfold query_llama3, try_except, ret. rewrite Hgroq. reflexivity.
  - apply error_reply_has_no_insight, He.
Qed.

Lemma endpoint_failure_is_no_insight_witness :
  analyze log_px log_write load_sales load_sales describe_sales groq_down
          console_ok
          (Some (mkFile (Some "sales.csv") "Region,Sales,Units")) []
  = (inr (ErrorRawBody "No insights extracted"
            (GROQ_ERROR_PREFIX
               ++ "HTTPSConnectionPool(host='api.groq.com', port=443)"),
          500), []).
Proof.
  apply (endpoint_failure_is_no_insight Log unit log_px log_write load_sales
           load_sales describe_sales groq_down console_ok
           (mkFile (Some "sales.csv") "Region,Sales,Units") "sales.csv"
           load_sales sales_table "        Region  Sales  Units"
           "HTTPSConnectionPool(host='api.groq.com', port=443)"
           [] [] [] [] []); reflexivity.
Defined.
